(** * A shallow embedding of [password_system.py]

    The development follows the Python module class by class:
    [Password], the analyzers ([BasicPasswordAnalyzer] and
    [AdvancedPasswordAnalyzer]), [PasswordPolicy] and [PasswordGenerator].
    The fragments of the Python runtime the module relies on (strings as
    sequences of code points, slices, [range], insertion-ordered
    dictionaries, exceptions and the [random] module) come first. *)

From Stdlib Require Import ZArith NArith List String Ascii Bool Lia.
From Stdlib Require Import PeanoNat Permutation DecimalString.
Import ListNotations.

Local Open Scope Z_scope.

(* ===================================================================== *)
(** * Python runtime *)
(* ===================================================================== *)

(** ** Strings: sequences of Unicode code points *)

Definition char := N.
Definition str := list char.

(** An ASCII literal of the source, as a Python [str]. *)
Definition lit (s : string) : str :=
  List.map N_of_ascii (list_ascii_of_string s).

Definition str_eq_dec : forall a b : str, {a = b} + {a <> b} :=
  list_eq_dec N.eq_dec.

(** [a == b] on strings. *)
Definition str_eqb (a b : str) : bool :=
  if str_eq_dec a b then true else false.

(** [len(s)]. *)
Definition len {A : Type} (s : list A) : Z := Z.of_nat (List.length s).

(** [s * n]: repetition; a count below one gives the empty string. *)
Definition str_mul (s : str) (n : Z) : str :=
  List.concat (List.repeat s (Z.to_nat n)).

(** [sep.join(parts)]. *)
Fixpoint join (sep : str) (parts : list str) : str :=
  match parts with
  | [] => []
  | [p] => p
  | p :: rest => p ++ sep ++ join sep rest
  end.

(** Normalisation of one slice bound against a length, as
    [PySlice_AdjustIndices] does it for a step of one. *)
Definition slice_bound (n i : Z) : Z :=
  if i <? 0 then Z.max 0 (i + n) else Z.min i n.

(** [s[a:b]]. *)
Definition slice {A : Type} (s : list A) (a b : Z) : list A :=
  let lo := slice_bound (len s) a in
  let hi := slice_bound (len s) b in
  List.firstn (Z.to_nat (hi - lo)) (List.skipn (Z.to_nat lo) s).

(** [range(lo, hi)] as the list it iterates over. *)
Definition range (lo hi : Z) : list Z :=
  List.map (fun k => lo + Z.of_nat k) (List.seq 0 (Z.to_nat (hi - lo))).

(** [x in xs] for a set or list of strings. *)
Definition str_in (x : str) (xs : list str) : bool :=
  List.existsb (str_eqb x) xs.

(** [sum(bools)]: booleans add as the integers 0 and 1, from 0. *)
Definition sum_bools (bs : list bool) : Z :=
  List.fold_left (fun acc b => acc + Z.b2z b) bs 0.

(** [all(bools)]. *)
Definition all (bs : list bool) : bool := List.forallb (fun b => b) bs.

(** [str(n)] for an integer: its decimal digits, a minus sign before a
    negative one. *)
Definition str_of_int (n : Z) : str :=
  lit (NilZero.string_of_int (Z.to_int n)).

(** [str(b)] for a boolean. *)
Definition str_of_bool (b : bool) : str :=
  if b then lit "True" else lit "False".

(** [s.replace(old, new)] for a pattern [old] of one character. *)
Definition replace_char (s : str) (old : char) (new : str) : str :=
  List.flat_map (fun c => if N.eqb c old then new else [c]) s.

(** [print(x)] onto what was written before: the text and a newline. *)
Definition print (stdout : str) (text : str) : str :=
  stdout ++ text ++ [10%N].

(** ** The [string] module's constants *)

Definition ascii_lowercase : str := lit "abcdefghijklmnopqrstuvwxyz".
Definition ascii_uppercase : str := lit "ABCDEFGHIJKLMNOPQRSTUVWXYZ".
Definition ascii_letters : str := ascii_lowercase ++ ascii_uppercase.
Definition digits : str := lit "0123456789".

(** [string.punctuation]; code point 34 is the double quote. *)
Definition punctuation : str :=
  lit "!" ++ [34%N] ++ lit "#$%&'()*+,-./:;<=>?@[\]^_`{|}~".

(** ** Exceptions and results *)

Inductive exn : Type :=
| TypeError (msg : string)
| ValueError (msg : string)
| IndexError (msg : string).

(** The result of a call that may raise. *)
Inductive result (A : Type) : Type :=
| Ok (a : A)
| Err (e : exn).
Arguments Ok {A} a.
Arguments Err {A} e.

(** The values [Password] may be called with: the constructor tests
    [isinstance(value, str)]. *)
Inductive pyobj : Type :=
| PyStr (s : str)
| PyInt (z : Z)
| PyNone.

(** ** Lists updated by index *)

(** [x[i] = v] for an index inside the list. *)
Fixpoint list_set {A : Type} (x : list A) (i : nat) (v : A) : list A :=
  match x, i with
  | [], _ => []
  | _ :: t, O => v :: t
  | h :: t, S i' => h :: list_set t i' v
  end.

(** [x[i], x[j] = x[j], x[i]]: the right-hand side is read first, then
    [x[i]] and [x[j]] are assigned in that order.  [None] stands for the
    [IndexError] of an index outside the list. *)
Definition swap {A : Type} (x : list A) (i j : nat) : option (list A) :=
  match List.nth_error x j, List.nth_error x i with
  | Some xj, Some xi => Some (list_set (list_set x i xj) j xi)
  | _, _ => None
  end.

(** ** The [random] module

    The generator's state is a tape of raw draws and a read position.
    Each request consumes one draw; every index below the bound is the
    outcome of some tape. *)

Record rng : Type := mkRng { tape : nat -> nat; pos : nat }.

(** What running a piece of code gives: a value, an exception, or
    [Spin] when the fuel given to a [while True] loop ran out with the
    loop still going. *)
Inductive outcome (A : Type) : Type :=
| Return (a : A)
| Raise (e : exn)
| Spin.
Arguments Return {A} a.
Arguments Raise {A} e.
Arguments Spin {A}.

(** Code that draws random numbers and may raise. *)
Definition M (A : Type) : Type := rng -> outcome A * rng.

Definition ret {A : Type} (a : A) : M A := fun r => (Return a, r).

Definition raise {A : Type} (e : exn) : M A := fun r => (Raise e, r).

Definition bind {A B : Type} (c : M A) (k : A -> M B) : M B :=
  fun r =>
    match c r with
    | (Return a, r') => k a r'
    | (Raise e, r') => (Raise e, r')
    | (Spin, r') => (Spin, r')
    end.

Notation "x <- c ;; k" := (bind c (fun x => k))
  (at level 61, c at next level, right associativity).

Definition lift {A : Type} (x : result A) : M A :=
  match x with
  | Ok a => ret a
  | Err e => raise e
  end.

(** One draw below [n] ([_randbelow(n)], and [floor(random() * n)]). *)
Definition randbelow (n : nat) : M nat :=
  fun r => (Return (Nat.modulo (tape r (pos r)) n), mkRng (tape r) (S (pos r))).

(** [seq[i]] on a string: a string of one character. *)
Definition str_item (s : str) (i : nat) : M str :=
  match List.nth_error s i with
  | Some c => ret [c]
  | None => raise (IndexError "string index out of range")
  end.

(** [random.choice(seq)]. *)
Definition choice (s : str) : M str :=
  match s with
  | [] => raise (IndexError "Cannot choose from an empty sequence")
  | _ => i <- randbelow (List.length s) ;; str_item s i
  end.

(** [random.choices(population, k=k)]: [k] independent draws;
    [itertools.repeat] runs no iteration for a negative count. *)
Fixpoint choices_n (population : str) (k : nat) : M (list str) :=
  match k with
  | O => ret []
  | S k' =>
      i <- randbelow (List.length population) ;;
      c <- str_item population i ;;
      rest <- choices_n population k' ;;
      ret (c :: rest)
  end.

Definition choices (population : str) (k : Z) : M (list str) :=
  choices_n population (Z.to_nat k).

(** The body of [random.shuffle]'s loop, for each of [indices] in turn:
    [j = randbelow(i + 1); x[i], x[j] = x[j], x[i]]. *)
Fixpoint shuffle_from {A : Type} (x : list A) (indices : list Z) : M (list A) :=
  match indices with
  | [] => ret x
  | i :: rest =>
      j <- randbelow (Z.to_nat (i + 1)) ;;
      match swap x (Z.to_nat i) j with
      | Some x' => shuffle_from x' rest
      | None => raise (IndexError "list index out of range")
      end
  end.

(** [random.shuffle(x)]: [for i in reversed(range(1, len(x)))]. *)
Definition shuffle {A : Type} (x : list A) : M (list A) :=
  shuffle_from x (List.rev (range 1 (len x))).

(** ** What the interpreter supplies

    The Unicode database decides [str.isupper], [str.islower] and
    [str.isdigit] beyond ASCII and lowers strings that hold a character
    beyond ASCII; floats come with [math.log2], [int * float] and
    [round(x, ndigits)].  Neither is code of the module, so both are
    taken as given. *)

Class UnicodeData : Type := {
  unicode_isupper : char -> bool;
  unicode_islower : char -> bool;
  unicode_isdigit : char -> bool;
  unicode_lower : str -> str
}.

Class FloatOps : Type := {
  float : Type;
  float_zero : float;
  math_log2 : Z -> float;
  int_mul_float : Z -> float -> float;
  round : float -> Z -> float
}.

(** [str.title] on a string that holds a character beyond ASCII, and
    [str(x)] of a float, are the interpreter's too. *)
Class UnicodeTitle : Type := {
  unicode_title : str -> str
}.

Class FloatFormat {F : FloatOps} : Type := {
  str_of_float : float -> str
}.

Section CharacterClasses.
Context {U : UnicodeData}.

Definition is_ascii (c : char) : bool := (c <? 128)%N.

(** [c.isupper()] for a string of one character. *)
Definition isupper (c : char) : bool :=
  if is_ascii c then ((65 <=? c) && (c <=? 90))%N else unicode_isupper c.

(** [c.islower()]. *)
Definition islower (c : char) : bool :=
  if is_ascii c then ((97 <=? c) && (c <=? 122))%N else unicode_islower c.

(** [c.isdigit()]. *)
Definition isdigit (c : char) : bool :=
  if is_ascii c then ((48 <=? c) && (c <=? 57))%N else unicode_isdigit c.

(** [c in string.punctuation] for a string of one character. *)
Definition is_punctuation (c : char) : bool :=
  List.existsb (N.eqb c) punctuation.

Definition ascii_lower_char (c : char) : char :=
  if ((65 <=? c) && (c <=? 90))%N then (c + 32)%N else c.

(** [s.lower()]: CPython lowers an all-ASCII string character by
    character and hands any other string to the Unicode case mapping. *)
Definition lower (s : str) : str :=
  if List.forallb is_ascii s then List.map ascii_lower_char s
  else unicode_lower s.
End CharacterClasses.

Section Title.
Context {T : UnicodeTitle}.

Definition is_ascii_letter (c : char) : bool :=
  (((65 <=? c) && (c <=? 90)) || ((97 <=? c) && (c <=? 122)))%N.

Definition ascii_upper_char (c : char) : char :=
  if ((97 <=? c) && (c <=? 122))%N then (c - 32)%N else c.

(** The loop of [str.title] on ASCII text: a character that follows a
    cased one is lowered, any other is put in title case, which is upper
    case here. *)
Fixpoint ascii_title_from (previous_is_cased : bool) (s : str) : str :=
  match s with
  | [] => []
  | c :: rest =>
      (if previous_is_cased then ascii_lower_char c else ascii_upper_char c)
        :: ascii_title_from (is_ascii_letter c) rest
  end.

(** [s.title()]. *)
Definition title (s : str) : str :=
  if List.forallb is_ascii s then ascii_title_from false s
  else unicode_title s.
End Title.

(* ===================================================================== *)
(** * class Password *)
(* ===================================================================== *)

Record Password : Type := mkPassword { _value : str }.

Module PasswordM.
Section Password.
Context {U : UnicodeData}.

(** [Password.__init__]. *)
Definition __init__ (value : pyobj) : result Password :=
  match value with
  | PyStr s =>
      match s with
      | [] => Err (ValueError "Password cannot be empty")
      | _ => Ok (mkPassword s)
      end
  | _ => Err (TypeError "Password must be a string")
  end.

Definition value (self : Password) : str := _value self.

Definition masked (self : Password) : str :=
  str_mul (lit "*") (len (_value self)).

Definition length (self : Password) : Z := len (_value self).

Definition contains_uppercase (self : Password) : bool :=
  List.existsb isupper (_value self).

Definition contains_lowercase (self : Password) : bool :=
  List.existsb islower (_value self).

Definition contains_digit (self : Password) : bool :=
  List.existsb isdigit (_value self).

Definition contains_special (self : Password) : bool :=
  List.existsb is_punctuation (_value self).

(** [Password.__str__]. *)
Definition __str__ (self : Password) : str :=
  lit "Password(masked='" ++ masked self ++ lit "', length="
      ++ str_of_int (length self) ++ lit ")".
End Password.
End PasswordM.

(* ===================================================================== *)
(** * Analysis results: dictionaries in insertion order *)
(* ===================================================================== *)

Section Dict.
Context {F : FloatOps}.

(** The values an analysis holds. *)
Inductive pyval : Type :=
| VStr (s : str)
| VInt (z : Z)
| VFloat (x : float)
| VBool (b : bool).

(** A [dict]: its items in insertion order, keys distinct. *)
Definition dict : Type := list (str * pyval).

(** [d[k] = v]: a key already there keeps its place and takes the new
    value; a new key goes last. *)
Fixpoint dict_setitem (d : dict) (k : str) (v : pyval) : dict :=
  match d with
  | [] => [(k, v)]
  | (k', v') :: rest =>
      if str_eqb k k' then (k', v) :: rest
      else (k', v') :: dict_setitem rest k v
  end.

(** A dictionary display [{k1: v1, ...}]: the items are stored from
    left to right. *)
Definition dict_display (items : list (str * pyval)) : dict :=
  List.fold_left (fun d kv => dict_setitem d (fst kv) (snd kv)) items [].

(** [list(d)]: the keys in insertion order. *)
Definition dict_keys (d : dict) : list str := List.map fst d.

(** [k in d]. *)
Definition dict_contains (d : dict) (k : str) : bool :=
  str_in k (dict_keys d).

(** [d.get(k)]. *)
Fixpoint dict_get (d : dict) (k : str) : option pyval :=
  match d with
  | [] => None
  | (k', v) :: rest => if str_eqb k k' then Some v else dict_get rest k
  end.
End Dict.

(* ===================================================================== *)
(** * The analyzers *)
(* ===================================================================== *)

(** [AbstractPasswordAnalyzer.__init__] stores the password; the two
    concrete classes add no field. *)
Record AbstractPasswordAnalyzer : Type := mkAnalyzer { _password : Password }.

Module BasicPasswordAnalyzer.
Section Basic.
Context {U : UnicodeData} {F : FloatOps}.

Definition COMMON_PASSWORDS : list str :=
  [lit "password"; lit "123456"; lit "qwerty"; lit "abc123"].

(** The [pool] variable of [entropy] when the four tests are done. *)
Definition pool (self : AbstractPasswordAnalyzer) : Z :=
  let pool := 0 in
  let pool :=
    if PasswordM.contains_lowercase (_password self) then pool + 26 else pool in
  let pool :=
    if PasswordM.contains_uppercase (_password self) then pool + 26 else pool in
  let pool :=
    if PasswordM.contains_digit (_password self) then pool + 10 else pool in
  let pool :=
    if PasswordM.contains_special (_password self)
    then pool + len punctuation else pool in
  pool.

Definition entropy (self : AbstractPasswordAnalyzer) : float :=
  if pool self =? 0 then float_zero
  else round
         (int_mul_float (PasswordM.length (_password self))
                        (math_log2 (pool self)))
         2.

(** The [score] variable of [strength]. *)
Definition score (self : AbstractPasswordAnalyzer) : Z :=
  sum_bools
    [ PasswordM.length (_password self) >=? 8;
      PasswordM.contains_lowercase (_password self);
      PasswordM.contains_uppercase (_password self);
      PasswordM.contains_digit (_password self);
      PasswordM.contains_special (_password self) ].

Definition strength (self : AbstractPasswordAnalyzer) : str :=
  let score := score self in
  if score <=? 2 then lit "Weak"
  else if score <=? 4 then lit "Medium"
  else lit "Strong".

Definition analyze (self : AbstractPasswordAnalyzer) : dict :=
  dict_display
    [ (lit "password", VStr (PasswordM.masked (_password self)));
      (lit "length", VInt (PasswordM.length (_password self)));
      (lit "entropy", VFloat (entropy self));
      (lit "strength", VStr (strength self));
      (lit "is_common",
       VBool (str_in (lower (PasswordM.value (_password self)))
                     COMMON_PASSWORDS)) ].
End Basic.
End BasicPasswordAnalyzer.

Module AdvancedPasswordAnalyzer.
Section Advanced.
Context {U : UnicodeData} {F : FloatOps}.

(** The two nested [for] loops; [return True] at the first match is
    the short cut of [existsb]. *)
Definition has_repeated_patterns (self : AbstractPasswordAnalyzer) : bool :=
  let pw := PasswordM.value (_password self) in
  let n := len pw in
  List.existsb
    (fun size =>
       List.existsb
         (fun start =>
            str_eqb (slice pw start (start + size))
                    (slice pw (start + size) (start + 2 * size)))
         (range 0 (n - 2 * size + 1)))
    (range 1 (n / 2 + 1)).

(** [results = super().analyze(); results["has_repeats"] = ...]. *)
Definition analyze (self : AbstractPasswordAnalyzer) : dict :=
  let results := BasicPasswordAnalyzer.analyze self in
  dict_setitem results (lit "has_repeats")
               (VBool (has_repeated_patterns self)).
End Advanced.
End AdvancedPasswordAnalyzer.

(* ===================================================================== *)
(** * class PasswordPolicy *)
(* ===================================================================== *)

Record PasswordPolicy : Type := mkPolicy {
  min_length : Z;
  require_upper : bool;
  require_lower : bool;
  require_digit : bool;
  require_special : bool
}.

Module PasswordPolicyM.
Section Policy.
Context {U : UnicodeData}.

(** [PasswordPolicy()] with every default. *)
Definition default : PasswordPolicy := mkPolicy 8 true true true true.

Definition validate (self : PasswordPolicy) (password : Password) : bool :=
  all
    [ PasswordM.length password >=? min_length self;
      negb (require_upper self) || PasswordM.contains_uppercase password;
      negb (require_lower self) || PasswordM.contains_lowercase password;
      negb (require_digit self) || PasswordM.contains_digit password;
      negb (require_special self) || PasswordM.contains_special password ].
End Policy.
End PasswordPolicyM.

(* ===================================================================== *)
(** * class PasswordGenerator *)
(* ===================================================================== *)

Record PasswordGenerator : Type := mkGenerator { _policy : PasswordPolicy }.

Module PasswordGeneratorM.
Section Generator.
Context {U : UnicodeData}.

(** One pass of the loop's body up to the construction of the
    password: the four seeded characters, the padding, the shuffle. *)
Definition candidate (length : Z) : M Password :=
  c1 <- choice ascii_uppercase ;;
  c2 <- choice ascii_lowercase ;;
  c3 <- choice digits ;;
  c4 <- choice punctuation ;;
  let chars := [c1; c2; c3; c4] in
  pad <- choices (ascii_letters ++ digits ++ punctuation) (length - 4) ;;
  let chars := chars ++ pad in
  chars <- shuffle chars ;;
  lift (PasswordM.__init__ (PyStr (join [] chars))).

(** The [while True] loop, run for at most [fuel] passes. *)
Fixpoint generate_loop (self : PasswordGenerator) (length : Z) (fuel : nat)
  : M Password :=
  match fuel with
  | O => fun r => (Spin, r)
  | S fuel' =>
      password <- candidate length ;;
      if PasswordPolicyM.validate (_policy self) password
      then ret password
      else generate_loop self length fuel'
  end.

Definition generate (self : PasswordGenerator) (length : Z) (fuel : nat)
  : M Password :=
  if length <? min_length (_policy self)
  then raise (ValueError "Length below policy minimum")
  else generate_loop self length fuel.
End Generator.
End PasswordGeneratorM.

(* ===================================================================== *)
(** * class PasswordReport, run_analysis and the demonstration *)
(* ===================================================================== *)

Section Report.
Context {U : UnicodeData} {F : FloatOps} {T : UnicodeTitle} {P : FloatFormat}.

Record PasswordReport : Type := mkReport { _analysis : dict }.

(** [{value}] in an f-string: [str(value)]. *)
Definition format_value (v : pyval) : str :=
  match v with
  | VStr s => s
  | VInt z => str_of_int z
  | VFloat x => str_of_float x
  | VBool b => str_of_bool b
  end.

(** The line appended for one item:
    [f"{key.replace('_', ' ').title()}: {value}"]. *)
Definition report_line (item : str * pyval) : str :=
  title (replace_char (fst item) 95%N (lit " ")) ++ lit ": "
        ++ format_value (snd item).

(** The [lines] list of [PasswordReport.__str__] when the loop is over. *)
Definition report_lines (self : PasswordReport) : list str :=
  let lines := [lit "Password Analysis Report";
                lit "------------------------"] in
  List.fold_left (fun lines item => lines ++ [report_line item])
                 (_analysis self) lines.

(** [PasswordReport.__str__]. *)
Definition report_str (self : PasswordReport) : str :=
  join [10%N] (report_lines self).

(** The analyzers a caller can build: the abstract class cannot be
    instantiated, the two concrete ones differ by their [analyze]. *)
Inductive Analyzer : Type :=
| Basic (self : AbstractPasswordAnalyzer)
| Advanced (self : AbstractPasswordAnalyzer).

(** [analyzer.analyze()]: the method of the object's class. *)
Definition analyze_method (analyzer : Analyzer) : dict :=
  match analyzer with
  | Basic self => BasicPasswordAnalyzer.analyze self
  | Advanced self => AdvancedPasswordAnalyzer.analyze self
  end.

Definition run_analysis (analyzer : Analyzer) : PasswordReport :=
  mkReport (analyze_method analyzer).

(** The loop of [main]: [print(); print(report)] for each analyzer. *)
Fixpoint print_reports (stdout : str) (analyzers : list Analyzer) : str :=
  match analyzers with
  | [] => stdout
  | analyzer :: rest =>
      let report := run_analysis analyzer in
      let stdout := print stdout [] in
      let stdout := print stdout (report_str report) in
      print_reports stdout rest
  end.

(** [main] of the demonstration, as the text it prints; [fuel] bounds
    the passes of the generator's loop. *)
Definition main (fuel : nat) : M str :=
  let policy := mkPolicy 10 true true true true in
  let generator := mkGenerator policy in
  password <- PasswordGeneratorM.generate generator 12 fuel ;;
  let stdout := print [] (PasswordM.__str__ password) in
  let analyzers := [ Basic (mkAnalyzer password);
                     Advanced (mkAnalyzer password) ] in
  ret (print_reports stdout analyzers).
End Report.

(* ===================================================================== *)
(** * The specification's vocabulary *)
(* ===================================================================== *)

(** The substring [[a, b)] of a string. *)
Definition substring (s : str) (a b : nat) : str :=
  List.firstn (b - a) (List.skipn a s).

(** How many of the conditions hold. *)
Definition count_true (bs : list bool) : nat :=
  List.count_occ Bool.bool_dec bs true.

(** A mapping restricted to some keys, the order of its items kept. *)
Definition dict_restrict {F : FloatOps} (d : dict) (ks : list str) : dict :=
  List.filter (fun kv => str_in (fst kv) ks) d.

(** The five keys of a Basic analysis, in the order the specification
    lists them. *)
Definition basic_keys : list str :=
  [lit "password"; lit "length"; lit "entropy"; lit "strength";
   lit "is_common"].

(** The pool of the entropy estimate, class by class. *)
Definition pool_of_classes (upper lower digit special : bool) : Z :=
  (if upper then 26 else 0) + (if lower then 26 else 0)
  + (if digit then 10 else 0) + (if special then 32 else 0).

(** One policy asks no more than another: a minimum that is no larger
    and no requirement the other does not have. *)
Definition relaxes (p' p : PasswordPolicy) : Prop :=
  min_length p' <= min_length p
  /\ (require_upper p' = true -> require_upper p = true)
  /\ (require_lower p' = true -> require_lower p = true)
  /\ (require_digit p' = true -> require_digit p = true)
  /\ (require_special p' = true -> require_special p = true).

(** The generator's state after [n] more draws. *)
Definition after (r : rng) (n : nat) : rng := mkRng (tape r) (pos r + n).

(** The text of some lines, each ended by a newline. *)
Definition lines_text (lines : list str) : str :=
  List.flat_map (fun l => l ++ [10%N]) lines.

(** A Unicode table that knows no character beyond ASCII: the instance
    the concrete runs below are evaluated with. *)
Definition ascii_only : UnicodeData :=
  Build_UnicodeData (fun _ => false) (fun _ => false) (fun _ => false)
                    (fun s => s).

(** Integers standing for floats, for the concrete runs that analyse a
    password. *)
Definition integer_floats : FloatOps :=
  Build_FloatOps Z 0 Z.log2 Z.mul (fun x _ => x).

(** A tape for the concrete runs. *)
Definition sample_rng : rng := mkRng (fun n => 7 * n + 3)%nat 0.

(* ===================================================================== *)
(** * Facts about the runtime *)
(* ===================================================================== *)

Lemma str_eqb_eq (a b : str) : str_eqb a b = true <-> a = b.
Proof.
  unfold str_eqb. destruct (str_eq_dec a b); split; congruence.
Qed.

Lemma in_range (lo hi x : Z) : In x (range lo hi) <-> lo <= x < hi.
Proof.
  unfold range. rewrite in_map_iff. split.
  - intros [k [<- Hk]]. apply in_seq in Hk. lia.
  - intros Hx. exists (Z.to_nat (x - lo)). split; [lia|].
    apply in_seq. lia.
Qed.

Lemma slice_inside {A : Type} (s : list A) (a b : nat) :
  (a <= b <= List.length s)%nat ->
  slice s (Z.of_nat a) (Z.of_nat b) = List.firstn (b - a) (List.skipn a s).
Proof.
  intros H. unfold slice, slice_bound, len.
  destruct (Z.ltb_spec (Z.of_nat a) 0); [lia|].
  destruct (Z.ltb_spec (Z.of_nat b) 0); [lia|].
  rewrite !Z.min_l by lia.
  f_equal; [lia|]. f_equal. lia.
Qed.

Lemma join_empty_sep (parts : list str) : join [] parts = List.concat parts.
Proof.
  induction parts as [|p rest IH]; [reflexivity|].
  destruct rest as [|q rest'].
  - simpl. now rewrite app_nil_r.
  - change (join [] (p :: q :: rest')) with (p ++ [] ++ join [] (q :: rest')).
    rewrite IH. reflexivity.
Qed.

Lemma sum_bools_from (bs : list bool) (acc : Z) :
  List.fold_left (fun a b => a + Z.b2z b) bs acc
  = acc + Z.of_nat (count_true bs).
Proof.
  revert acc. induction bs as [|b bs IH]; intros acc; simpl.
  - unfold count_true. simpl. lia.
  - rewrite IH. unfold count_true. destruct b; simpl.
    + destruct (bool_dec true true); [|congruence]. lia.
    + destruct (bool_dec false true); [congruence|]. lia.
Qed.

Lemma sum_bools_count (bs : list bool) :
  sum_bools bs = Z.of_nat (count_true bs).
Proof. unfold sum_bools. now rewrite sum_bools_from. Qed.

Lemma count_true_le_length (bs : list bool) :
  (count_true bs <= List.length bs)%nat.
Proof. apply count_occ_bound. Qed.

Lemma all_true_iff (bs : list bool) :
  all bs = true <-> Forall (fun b => b = true) bs.
Proof.
  unfold all. rewrite forallb_forall, Forall_forall. reflexivity.
Qed.

Lemma concat_singletons_length {A : Type} (l : list (list A)) :
  Forall (fun p => List.length p = 1%nat) l ->
  List.length (List.concat l) = List.length l.
Proof.
  induction 1 as [|p l Hp _ IH]; simpl; [reflexivity|].
  rewrite length_app, Hp, IH. reflexivity.
Qed.

Lemma existsb_concat_member {A : Type} (f : A -> bool) (l : list (list A))
      (c : A) :
  In [c] l -> f c = true -> List.existsb f (List.concat l) = true.
Proof.
  intros Hin Hf. apply existsb_exists. exists c. split; [|exact Hf].
  apply in_concat. exists [c]. split; [exact Hin | now left].
Qed.

(** ** Assignments by index and the swap of [shuffle] *)

Section Swap.
Context {A : Type}.
Variable eq_dec : forall a b : A, {a = b} + {a <> b}.

Let occ (a y : A) : nat := if eq_dec a y then 1%nat else 0%nat.

Lemma length_list_set (x : list A) (i : nat) (v : A) :
  List.length (list_set x i v) = List.length x.
Proof.
  revert i. induction x as [|h t IH]; intros [|i]; simpl; auto.
Qed.

Lemma count_occ_list_set (x : list A) (i : nat) (a v y : A) :
  List.nth_error x i = Some a ->
  (count_occ eq_dec (list_set x i v) y + occ a y
   = count_occ eq_dec x y + occ v y)%nat.
Proof.
  unfold occ. revert i.
  induction x as [|h t IH]; intros [|i] Hi; simpl in *; try discriminate.
  - injection Hi as ->.
    destruct (eq_dec v y), (eq_dec a y); lia.
  - specialize (IH i Hi). destruct (eq_dec h y); lia.
Qed.

Lemma nth_error_list_set_other (x : list A) (i j : nat) (a b : A) :
  List.nth_error x i = Some a ->
  List.nth_error x j = Some b ->
  List.nth_error (list_set x i b) j = Some b.
Proof.
  revert i j.
  induction x as [|h t IH]; intros [|i] [|j] Hi Hj; simpl in *;
    try discriminate; auto.
Qed.

Lemma swap_permutation (x : list A) (i j : nat) :
  (i < List.length x)%nat -> (j < List.length x)%nat ->
  exists x', swap x i j = Some x' /\ Permutation x x'.
Proof.
  intros Hi Hj. unfold swap.
  destruct (List.nth_error x j) as [xj|] eqn:Ej;
    [|apply nth_error_None in Ej; lia].
  destruct (List.nth_error x i) as [xi|] eqn:Ei;
    [|apply nth_error_None in Ei; lia].
  eexists. split; [reflexivity|].
  apply (Permutation_count_occ eq_dec). intros y.
  pose proof (count_occ_list_set x i xi xj y Ei) as H1.
  pose proof (nth_error_list_set_other x i j xi xj Ei Ej) as Ej'.
  pose proof (count_occ_list_set (list_set x i xj) j xj xi y Ej') as H2.
  lia.
Qed.
End Swap.


(** ** The random draws *)

Lemma randbelow_lt (n : nat) (r : rng) :
  (0 < n)%nat ->
  exists j r', randbelow n r = (Return j, r') /\ (j < n)%nat.
Proof.
  intros Hn. unfold randbelow. do 2 eexists. split; [reflexivity|].
  apply Nat.mod_upper_bound. lia.
Qed.

(** Every index below the bound is the outcome of some tape, so a
    statement about all generator states is one about all draws. *)
Lemma randbelow_any (n j p : nat) :
  (j < n)%nat ->
  fst (randbelow n (mkRng (fun _ => j) p)) = Return j.
Proof.
  intros Hj. unfold randbelow. cbn [fst tape pos].
  now rewrite Nat.mod_small.
Qed.

Lemma str_item_inside (s : str) (i : nat) (r : rng) :
  (i < List.length s)%nat ->
  exists c, In c s /\ str_item s i r = (Return [c], r).
Proof.
  intros Hi. unfold str_item.
  destruct (List.nth_error s i) as [c|] eqn:E.
  - exists c. split; [eapply nth_error_In; eauto | reflexivity].
  - apply nth_error_None in E. lia.
Qed.

Lemma choice_member (s : str) (r : rng) :
  s <> [] ->
  exists c r', In c s /\ choice s r = (Return [c], r').
Proof.
  intros Hs. destruct s as [|c0 s0]; [congruence|].
  unfold choice, bind.
  destruct (randbelow_lt (List.length (c0 :: s0)) r) as (j & r' & Ej & Hj);
    [simpl; lia|].
  rewrite Ej.
  destruct (str_item_inside (c0 :: s0) j r' Hj) as (c & Hc & Ec).
  exists c, r'. split; assumption.
Qed.

Lemma choices_n_members (population : str) (k : nat) (r : rng) :
  population <> [] ->
  exists l r',
    choices_n population k r = (Return l, r')
    /\ List.length l = k
    /\ Forall (fun p => exists c, p = [c] /\ In c population) l.
Proof.
  intros Hp. revert r. induction k as [|k IH]; intros r; simpl.
  - exists [], r. repeat split; constructor.
  - unfold bind.
    destruct (randbelow_lt (List.length population) r) as (j & r1 & Ej & Hj).
    { destruct population; [congruence | simpl; lia]. }
    rewrite Ej.
    destruct (str_item_inside population j r1 Hj) as (c & Hc & Ec).
    rewrite Ec.
    destruct (IH r1) as (l & r2 & El & Hlen & Hall).
    rewrite El. exists ([c] :: l), r2. repeat split.
    + simpl. now rewrite Hlen.
    + constructor; [exists c; auto | assumption].
Qed.

Lemma shuffle_from_permutation {A : Type}
      (eq_dec : forall a b : A, {a = b} + {a <> b})
      (indices : list Z) (x : list A) (r : rng) :
  Forall (fun i => 0 <= i < len x) indices ->
  exists x' r', shuffle_from x indices r = (Return x', r') /\ Permutation x x'.
Proof.
  revert x r. induction indices as [|i rest IH]; intros x r Hall; simpl.
  - exists x, r. split; [reflexivity | apply Permutation_refl].
  - inversion Hall as [|? ? Hi Hrest]; subst. unfold len in Hi.
    unfold bind.
    destruct (randbelow_lt (Z.to_nat (i + 1)) r) as (j & r1 & Ej & Hj);
      [lia|].
    rewrite Ej.
    destruct (swap_permutation eq_dec x (Z.to_nat i) j) as (x1 & Es & Hp);
      [lia | lia |].
    rewrite Es.
    destruct (IH x1 r1) as (x2 & r2 & E2 & Hp2).
    { unfold len. rewrite <- (Permutation_length Hp). exact Hrest. }
    exists x2, r2. split; [exact E2 | eapply Permutation_trans; eauto].
Qed.

Lemma shuffle_permutation {A : Type}
      (eq_dec : forall a b : A, {a = b} + {a <> b})
      (x : list A) (r : rng) :
  exists x' r', shuffle x r = (Return x', r') /\ Permutation x x'.
Proof.
  unfold shuffle. apply shuffle_from_permutation; [exact eq_dec|].
  apply Forall_forall. intros i Hi.
  apply in_rev, in_range in Hi. lia.
Qed.

(** ** The character classes of the generator's alphabets *)

Section Alphabets.
Context {U : UnicodeData}.

Lemma ascii_uppercase_isupper (c : char) :
  In c ascii_uppercase -> isupper c = true.
Proof.
  assert (H : List.forallb isupper ascii_uppercase = true) by reflexivity.
  rewrite forallb_forall in H. apply H.
Qed.

Lemma ascii_lowercase_islower (c : char) :
  In c ascii_lowercase -> islower c = true.
Proof.
  assert (H : List.forallb islower ascii_lowercase = true) by reflexivity.
  rewrite forallb_forall in H. apply H.
Qed.

Lemma digits_isdigit (c : char) : In c digits -> isdigit c = true.
Proof.
  assert (H : List.forallb isdigit digits = true) by reflexivity.
  rewrite forallb_forall in H. apply H.
Qed.

Lemma punctuation_is_punctuation (c : char) :
  In c punctuation -> is_punctuation c = true.
Proof.
  intros Hc. unfold is_punctuation. apply existsb_exists.
  exists c. split; [exact Hc | apply N.eqb_refl].
Qed.

(** ** One pass of the generator's loop *)

(** Whatever the draws, a pass builds a password that holds a character
    of each class and has four characters plus the padding. *)
Lemma candidate_classes (length : Z) (r : rng) :
  exists pw r',
    PasswordGeneratorM.candidate length r = (Return pw, r')
    /\ PasswordM.length pw = Z.max 4 length
    /\ PasswordM.contains_uppercase pw = true
    /\ PasswordM.contains_lowercase pw = true
    /\ PasswordM.contains_digit pw = true
    /\ PasswordM.contains_special pw = true.
Proof.
  unfold PasswordGeneratorM.candidate, bind.
  destruct (choice_member ascii_uppercase r) as (c1 & r1 & H1 & E1);
    [discriminate|]. rewrite E1. cbv beta iota zeta.
  destruct (choice_member ascii_lowercase r1) as (c2 & r2 & H2 & E2);
    [discriminate|]. rewrite E2. cbv beta iota zeta.
  destruct (choice_member digits r2) as (c3 & r3 & H3 & E3);
    [discriminate|]. rewrite E3. cbv beta iota zeta.
  destruct (choice_member punctuation r3) as (c4 & r4 & H4 & E4);
    [discriminate|]. rewrite E4. cbv beta iota zeta.
  unfold choices.
  destruct (choices_n_members (ascii_letters ++ digits ++ punctuation)
                              (Z.to_nat (length - 4)) r4)
    as (pad & r5 & E5 & Hlen & Hpad); [discriminate|].
  rewrite E5. cbv beta iota zeta.
  match goal with
  | |- context [shuffle ?l r5] =>
      set (chars := l);
      destruct (shuffle_permutation str_eq_dec chars r5) as (x & r6 & E6 & Hp)
  end.
  rewrite E6. cbv beta iota zeta. rewrite join_empty_sep.
  assert (Hone : Forall (fun p : str => List.length p = 1%nat) x).
  { eapply Permutation_Forall; [exact Hp|]. unfold chars.
    apply Forall_app. split.
    - repeat constructor.
    - eapply Forall_impl; [|exact Hpad].
      intros p (c & -> & _). reflexivity. }
  assert (Hx : List.length (List.concat x) = (4 + Z.to_nat (length - 4))%nat).
  { pose proof (concat_singletons_length x Hone) as Hc.
    pose proof (Permutation_length Hp) as Hl. unfold chars in Hl.
    rewrite length_app, Hlen in Hl. simpl in Hl.
    etransitivity; [exact Hc | symmetry; exact Hl]. }
  assert (Hin : forall c, In [c] chars -> In [c] x).
  { intros c Hc. eapply Permutation_in; eauto. }
  destruct (List.concat x) as [|c0 rest] eqn:Ex; [simpl in Hx; lia|].
  exists (mkPassword (c0 :: rest)), r6.
  split; [reflexivity|]. rewrite <- Ex in *.
  unfold PasswordM.length, PasswordM.contains_uppercase,
    PasswordM.contains_lowercase, PasswordM.contains_digit,
    PasswordM.contains_special, len.
  cbn [_value]. rewrite Hx.
  split; [lia|].
  repeat split.
  - apply (existsb_concat_member isupper x c1);
      [apply Hin; unfold chars; simpl; auto | now apply ascii_uppercase_isupper].
  - apply (existsb_concat_member islower x c2);
      [apply Hin; unfold chars; simpl; auto | now apply ascii_lowercase_islower].
  - apply (existsb_concat_member isdigit x c3);
      [apply Hin; unfold chars; simpl; auto | now apply digits_isdigit].
  - apply (existsb_concat_member is_punctuation x c4);
      [apply Hin; unfold chars; simpl; auto
      | now apply punctuation_is_punctuation].
Qed.

(** A pass whose requested length reaches the policy's minimum builds a
    password the policy accepts. *)
Lemma candidate_validates (self : PasswordPolicy) (length : Z) (r : rng) :
  min_length self <= length ->
  exists pw r',
    PasswordGeneratorM.candidate length r = (Return pw, r')
    /\ PasswordM.length pw = Z.max 4 length
    /\ PasswordPolicyM.validate self pw = true.
Proof.
  intros Hmin.
  destruct (candidate_classes length r)
    as (pw & r' & E & Hlen & Hu & Hl & Hd & Hs).
  exists pw, r'. split; [exact E|]. split; [exact Hlen|].
  unfold PasswordPolicyM.validate, all. cbn [List.forallb].
  rewrite Hu, Hl, Hd, Hs, !orb_true_r, Hlen.
  destruct (Z.geb_spec (Z.max 4 length) (min_length self)); [reflexivity|lia].
Qed.

(** The loop returns the first pass's password as soon as it has fuel
    for one pass. *)
Lemma generate_loop_first_pass (self : PasswordGenerator) (length : Z)
      (fuel : nat) (r : rng) (pw : Password) (r' : rng) :
  PasswordGeneratorM.candidate length r = (Return pw, r') ->
  PasswordPolicyM.validate (_policy self) pw = true ->
  PasswordGeneratorM.generate_loop self length (S fuel) r = (Return pw, r').
Proof.
  intros E Hv. cbn [PasswordGeneratorM.generate_loop]. unfold bind.
  rewrite E, Hv. reflexivity.
Qed.
End Alphabets.

(** ** Slices, halves and dictionaries *)

Lemma slice_substring (s : str) (a b : nat) :
  (a <= b <= List.length s)%nat ->
  slice s (Z.of_nat a) (Z.of_nat b) = substring s a b.
Proof. intros H. unfold substring. now apply slice_inside. Qed.

Lemma half_of_nat (n : nat) : Z.of_nat n / 2 = Z.of_nat (n / 2).
Proof. now rewrite Nat2Z.inj_div. Qed.

Lemma le_half (n s : nat) : (s <= n / 2)%nat <-> (2 * s <= n)%nat.
Proof.
  split; intros H.
  - pose proof (Nat.Div0.mul_div_le n 2). lia.
  - apply Nat.div_le_lower_bound; lia.
Qed.

Section DictFacts.
Context {F : FloatOps}.

Lemma dict_get_setitem (d : dict) (k : str) (v : pyval) :
  dict_get (dict_setitem d k v) k = Some v.
Proof.
  assert (Hk : str_eqb k k = true) by now apply str_eqb_eq.
  induction d as [|[k' v'] rest IH]; simpl.
  - now rewrite Hk.
  - destruct (str_eqb k k') eqn:E; simpl; rewrite E; auto.
Qed.
End DictFacts.
Section AnalyzerFacts.
Context {U : UnicodeData} {F : FloatOps}.

(** The items of a Basic analysis, in the order they are stored. *)
Lemma basic_analyze_items (self : AbstractPasswordAnalyzer) :
  BasicPasswordAnalyzer.analyze self
  = [ (lit "password", VStr (PasswordM.masked (_password self)));
      (lit "length", VInt (PasswordM.length (_password self)));
      (lit "entropy", VFloat (BasicPasswordAnalyzer.entropy self));
      (lit "strength", VStr (BasicPasswordAnalyzer.strength self));
      (lit "is_common",
       VBool (str_in (lower (PasswordM.value (_password self)))
                     BasicPasswordAnalyzer.COMMON_PASSWORDS)) ].
Proof. reflexivity. Qed.

(** The items of an Advanced analysis: those of the Basic one, then the
    new key. *)
Lemma advanced_analyze_items (self : AbstractPasswordAnalyzer) :
  AdvancedPasswordAnalyzer.analyze self
  = BasicPasswordAnalyzer.analyze self
    ++ [ (lit "has_repeats",
          VBool (AdvancedPasswordAnalyzer.has_repeated_patterns self)) ].
Proof.
  unfold AdvancedPasswordAnalyzer.analyze.
  rewrite basic_analyze_items. reflexivity.
Qed.

Lemma pool_by_class (self : AbstractPasswordAnalyzer) :
  BasicPasswordAnalyzer.pool self
  = pool_of_classes (PasswordM.contains_uppercase (_password self))
                    (PasswordM.contains_lowercase (_password self))
                    (PasswordM.contains_digit (_password self))
                    (PasswordM.contains_special (_password self)).
Proof.
  unfold BasicPasswordAnalyzer.pool, pool_of_classes.
  change (len punctuation) with 32.
  destruct (PasswordM.contains_uppercase (_password self)),
    (PasswordM.contains_lowercase (_password self)),
    (PasswordM.contains_digit (_password self)),
    (PasswordM.contains_special (_password self)); reflexivity.
Qed.

Lemma concat_repeat_singleton {A : Type} (c : A) (n : nat) :
  List.concat (List.repeat [c] n) = List.repeat c n.
Proof. induction n as [|n IH]; simpl; [reflexivity | now rewrite IH]. Qed.

Lemma masked_repeat (pw : Password) :
  PasswordM.masked pw = List.repeat 42%N (List.length (_value pw)).
Proof.
  unfold PasswordM.masked, str_mul, len. rewrite Nat2Z.id.
  apply (concat_repeat_singleton 42%N).
Qed.
End AnalyzerFacts.

(* ===================================================================== *)
(** * The specification's claims *)
(* ===================================================================== *)

Section GeneratorClaims.
Context {U : UnicodeData}.

(** C1, at a requested length below four: [generate] pads with
    [length - 4] characters, which is none when [length < 4], so a
    request the policy admits ([min_length <= length]) is answered with
    a password of four characters, not of [length] characters. *)
Theorem generate_length_below_four
        (self : PasswordGenerator) (length : Z) (fuel : nat) (r : rng) :
  min_length (_policy self) <= length ->
  length < 4 ->
  exists pw r',
    PasswordGeneratorM.generate self length (S fuel) r = (Return pw, r')
    /\ PasswordM.length pw = 4
    /\ PasswordM.length pw <> length.
Proof.
  intros Hmin Hlt.
  destruct (candidate_validates (_policy self) length r Hmin)
    as (pw & r' & E & Hlen & Hv).
  exists pw, r'. unfold PasswordGeneratorM.generate.
  destruct (Z.ltb_spec length (min_length (_policy self))); [lia|].
  split; [now apply generate_loop_first_pass|]. lia.
Qed.

(** C6: a requested length below the policy's minimum makes [generate]
    raise the [ValueError] "Length below policy minimum" at once:
    whatever the fuel, no random draw is made (the generator's state is
    the one it was called with), so no candidate is built and no
    password returned. *)
Theorem generate_below_minimum_raises
        (self : PasswordGenerator) (length : Z) (fuel : nat) (r : rng) :
  length < min_length (_policy self) ->
  PasswordGeneratorM.generate self length fuel r
  = (Raise (ValueError "Length below policy minimum"), r).
Proof.
  intros Hlt. unfold PasswordGeneratorM.generate.
  destruct (Z.ltb_spec length (min_length (_policy self))); [|lia].
  reflexivity.
Qed.

(** C10: for a requested length that reaches the policy's minimum and
    is at least four, whatever the random draws, the first candidate
    (four seeded characters and [length - 4] of padding, [length]
    characters in all) satisfies [validate], and [generate] returns it
    on the loop's first pass, for any fuel that allows one pass. *)
Theorem generate_first_pass_returns
        (self : PasswordGenerator) (length : Z) (r : rng) :
  min_length (_policy self) <= length ->
  4 <= length ->
  exists pw r',
    PasswordGeneratorM.candidate length r = (Return pw, r')
    /\ PasswordM.length pw = length
    /\ PasswordPolicyM.validate (_policy self) pw = true
    /\ forall fuel,
         PasswordGeneratorM.generate self length (S fuel) r = (Return pw, r').
Proof.
  intros Hmin H4.
  destruct (candidate_validates (_policy self) length r Hmin)
    as (pw & r' & E & Hlen & Hv).
  exists pw, r'. repeat split; [exact E | lia | exact Hv |].
  intros fuel. unfold PasswordGeneratorM.generate.
  destruct (Z.ltb_spec length (min_length (_policy self))); [lia|].
  now apply generate_loop_first_pass.
Qed.

(** C2: [validate] returns true exactly when the password's length
    reaches the minimum and every enabled requirement's predicate holds;
    a disabled requirement asks nothing. *)
Theorem validate_iff (self : PasswordPolicy) (pw : Password) :
  PasswordPolicyM.validate self pw = true
  <-> (PasswordM.length pw >= min_length self
       /\ (require_upper self = true -> PasswordM.contains_uppercase pw = true)
       /\ (require_lower self = true -> PasswordM.contains_lowercase pw = true)
       /\ (require_digit self = true -> PasswordM.contains_digit pw = true)
       /\ (require_special self = true
           -> PasswordM.contains_special pw = true)).
Proof.
  unfold PasswordPolicyM.validate. rewrite all_true_iff.
  split.
  - intros H.
    inversion H as [|? ? H0 H']; subst; clear H.
    inversion H' as [|? ? H1 H'']; subst; clear H'.
    inversion H'' as [|? ? H2 H3']; subst; clear H''.
    inversion H3' as [|? ? H3 H4']; subst; clear H3'.
    inversion H4' as [|? ? H4 _]; subst; clear H4'.
    apply Z.geb_le in H0.
    repeat split; try lia; intros Hr;
      match goal with
      | Hx : negb ?b || _ = true |- _ =>
          match type of Hr with b = true => rewrite Hr in Hx; exact Hx end
      end.
  - intros (H0 & H1 & H2 & H3 & H4).
    repeat constructor.
    + apply Z.geb_le. lia.
    + destruct (require_upper self); simpl; auto.
    + destruct (require_lower self); simpl; auto.
    + destruct (require_digit self); simpl; auto.
    + destruct (require_special self); simpl; auto.
Qed.
End GeneratorClaims.

Section AnalyzerClaims.
Context {U : UnicodeData} {F : FloatOps}.

(** C3: the Advanced analysis stores the result of
    [has_repeated_patterns] under [has_repeats], and that result is true
    exactly when some size [s] with [1 <= s <= n / 2] and some offset
    [i] with [0 <= i <= n - 2 s] give equal adjacent substrings
    [[i, i+s)] and [[i+s, i+2s)], [n] being the password's length; it is
    true for "abab" and false for "abcd". *)
Theorem has_repeats_iff_adjacent_blocks (self : AbstractPasswordAnalyzer) :
  dict_get (AdvancedPasswordAnalyzer.analyze self) (lit "has_repeats")
  = Some (VBool (AdvancedPasswordAnalyzer.has_repeated_patterns self))
  /\ (AdvancedPasswordAnalyzer.has_repeated_patterns self = true
      <-> exists s i : nat,
            (1 <= s <= List.length (_value (_password self)) / 2)%nat
            /\ (i <= List.length (_value (_password self)) - 2 * s)%nat
            /\ substring (_value (_password self)) i (i + s)
               = substring (_value (_password self)) (i + s) (i + 2 * s))
  /\ AdvancedPasswordAnalyzer.has_repeated_patterns
       (mkAnalyzer (mkPassword (lit "abab"))) = true
  /\ AdvancedPasswordAnalyzer.has_repeated_patterns
       (mkAnalyzer (mkPassword (lit "abcd"))) = false.
Proof.
  split; [apply dict_get_setitem|].
  split; [|split; reflexivity].
  unfold AdvancedPasswordAnalyzer.has_repeated_patterns, PasswordM.value.
  set (pw := _value (_password self)).
  unfold len. rewrite half_of_nat.
  rewrite existsb_exists. split.
  - intros (size & Hsize & Hex).
    apply existsb_exists in Hex. destruct Hex as (start & Hstart & Heq).
    apply in_range in Hsize. apply in_range in Hstart.
    apply str_eqb_eq in Heq.
    exists (Z.to_nat size), (Z.to_nat start).
    assert (Hs : (Z.to_nat size <= List.length pw / 2)%nat) by lia.
    pose proof (proj1 (le_half _ _) Hs) as H2s.
    split; [lia|]. split; [lia|].
    rewrite <- !slice_substring by lia.
    replace (Z.of_nat (Z.to_nat start)) with start by lia.
    replace (Z.of_nat (Z.to_nat start + Z.to_nat size)) with (start + size)
      by lia.
    replace (Z.of_nat (Z.to_nat start + 2 * Z.to_nat size))
      with (start + 2 * size) by lia.
    exact Heq.
  - intros (s & i & Hs & Hi & Heq).
    pose proof (proj1 (le_half _ _) (proj2 Hs)) as H2s.
    exists (Z.of_nat s). split; [apply in_range; lia|].
    apply existsb_exists. exists (Z.of_nat i).
    split; [apply in_range; lia|].
    apply str_eqb_eq.
    replace (Z.of_nat i + Z.of_nat s) with (Z.of_nat (i + s)) by lia.
    replace (Z.of_nat i + 2 * Z.of_nat s) with (Z.of_nat (i + 2 * s)) by lia.
    rewrite !slice_substring by lia.
    exact Heq.
Qed.

(** C4: the entropy is [0.0] when the password shows none of the four
    classes; otherwise it is [round(length * log2(pool), 2)], the pool
    adding 26 for uppercase, 26 for lowercase, 10 for a digit and 32 for
    ASCII punctuation, each when present. *)
Theorem entropy_by_pool (self : AbstractPasswordAnalyzer) :
  (PasswordM.contains_uppercase (_password self) = false
   /\ PasswordM.contains_lowercase (_password self) = false
   /\ PasswordM.contains_digit (_password self) = false
   /\ PasswordM.contains_special (_password self) = false
   -> BasicPasswordAnalyzer.entropy self = float_zero)
  /\ (PasswordM.contains_uppercase (_password self) = true
      \/ PasswordM.contains_lowercase (_password self) = true
      \/ PasswordM.contains_digit (_password self) = true
      \/ PasswordM.contains_special (_password self) = true
      -> BasicPasswordAnalyzer.entropy self
         = round
             (int_mul_float
                (PasswordM.length (_password self))
                (math_log2
                   (pool_of_classes
                      (PasswordM.contains_uppercase (_password self))
                      (PasswordM.contains_lowercase (_password self))
                      (PasswordM.contains_digit (_password self))
                      (PasswordM.contains_special (_password self)))))
             2).
Proof.
  unfold BasicPasswordAnalyzer.entropy. rewrite pool_by_class.
  split.
  - intros (-> & -> & -> & ->). reflexivity.
  - intros H.
    destruct (PasswordM.contains_uppercase (_password self)),
      (PasswordM.contains_lowercase (_password self)),
      (PasswordM.contains_digit (_password self)),
      (PasswordM.contains_special (_password self));
      try reflexivity.
    destruct H as [H|[H|[H|H]]]; discriminate.
Qed.

(** C5: the score counts the true conditions among length >= 8, has
    lowercase, has uppercase, has digit, has special, so it lies between
    0 and 5; the label is "Weak" up to 2, "Medium" for 3 and 4 and
    "Strong" for 5; "Abc123!@" is a password and its strength is
    "Strong". *)
Theorem strength_by_score (self : AbstractPasswordAnalyzer) :
  BasicPasswordAnalyzer.score self
  = Z.of_nat
      (count_true
         [ PasswordM.length (_password self) >=? 8;
           PasswordM.contains_lowercase (_password self);
           PasswordM.contains_uppercase (_password self);
           PasswordM.contains_digit (_password self);
           PasswordM.contains_special (_password self) ])
  /\ 0 <= BasicPasswordAnalyzer.score self <= 5
  /\ (BasicPasswordAnalyzer.score self <= 2
      -> BasicPasswordAnalyzer.strength self = lit "Weak")
  /\ (BasicPasswordAnalyzer.score self = 3
      \/ BasicPasswordAnalyzer.score self = 4
      -> BasicPasswordAnalyzer.strength self = lit "Medium")
  /\ (BasicPasswordAnalyzer.score self = 5
      -> BasicPasswordAnalyzer.strength self = lit "Strong")
  /\ PasswordM.__init__ (PyStr (lit "Abc123!@"))
     = Ok (mkPassword (lit "Abc123!@"))
  /\ BasicPasswordAnalyzer.strength (mkAnalyzer (mkPassword (lit "Abc123!@")))
     = lit "Strong".
Proof.
  split; [apply sum_bools_count|].
  split.
  { unfold BasicPasswordAnalyzer.score. rewrite sum_bools_count.
    match goal with
    | |- context [count_true ?bs] => pose proof (count_true_le_length bs) as H
    end.
    simpl List.length in H. lia. }
  unfold BasicPasswordAnalyzer.strength.
  repeat split; try reflexivity; intros H.
  - destruct (Z.leb_spec (BasicPasswordAnalyzer.score self) 2);
      [reflexivity | lia].
  - destruct (Z.leb_spec (BasicPasswordAnalyzer.score self) 2); [lia|].
    destruct (Z.leb_spec (BasicPasswordAnalyzer.score self) 4);
      [reflexivity | lia].
  - destruct (Z.leb_spec (BasicPasswordAnalyzer.score self) 2); [lia|].
    destruct (Z.leb_spec (BasicPasswordAnalyzer.score self) 4);
      [lia | reflexivity].
Qed.

(** C7: building a [Password] from the empty string raises the
    [ValueError] "Password cannot be empty"; from any other string it
    succeeds, the password's length is the string's, and its masked
    form has that length and holds mask characters only. *)
Theorem password_init_empty_or_masked :
  PasswordM.__init__ (PyStr []) = Err (ValueError "Password cannot be empty")
  /\ forall s : str,
       s <> [] ->
       exists pw,
         PasswordM.__init__ (PyStr s) = Ok pw
         /\ PasswordM.length pw = len s
         /\ len (PasswordM.masked pw) = len s
         /\ Forall (fun c => [c] = lit "*") (PasswordM.masked pw).
Proof.
  split; [reflexivity|].
  intros s Hs. exists (mkPassword s).
  split; [destruct s; [congruence | reflexivity]|].
  split; [reflexivity|].
  rewrite masked_repeat. cbn [_value]. split.
  - unfold len. now rewrite repeat_length.
  - apply Forall_forall. intros c Hc.
    apply repeat_spec in Hc. subst c. reflexivity.
Qed.

(** C8: a Basic analysis has exactly the keys password, length,
    entropy, strength, is_common, in that order, and not has_repeats;
    an Advanced analysis has has_repeats, after those five keys. *)
Theorem analyze_keys (self : AbstractPasswordAnalyzer) :
  dict_keys (BasicPasswordAnalyzer.analyze self)
  = [lit "password"; lit "length"; lit "entropy"; lit "strength";
     lit "is_common"]
  /\ dict_contains (BasicPasswordAnalyzer.analyze self) (lit "has_repeats")
     = false
  /\ dict_contains (AdvancedPasswordAnalyzer.analyze self) (lit "has_repeats")
     = true
  /\ dict_keys (AdvancedPasswordAnalyzer.analyze self)
     = [lit "password"; lit "length"; lit "entropy"; lit "strength";
        lit "is_common"; lit "has_repeats"].
Proof.
  rewrite advanced_analyze_items, basic_analyze_items.
  repeat split; reflexivity.
Qed.

(** C9: an Advanced analysis restricted to the five Basic keys is the
    Basic analysis of the same password: the same items in the same
    order, and the same value under each of the five keys. *)
Theorem advanced_restricts_to_basic (self : AbstractPasswordAnalyzer) :
  dict_restrict (AdvancedPasswordAnalyzer.analyze self) basic_keys
  = BasicPasswordAnalyzer.analyze self
  /\ List.map (dict_get (AdvancedPasswordAnalyzer.analyze self)) basic_keys
     = List.map (dict_get (BasicPasswordAnalyzer.analyze self)) basic_keys
  /\ Forall (fun k => dict_get (BasicPasswordAnalyzer.analyze self) k <> None)
            basic_keys.
Proof.
  rewrite advanced_analyze_items, basic_analyze_items.
  split; [reflexivity|]. split; [reflexivity|].
  repeat constructor; discriminate.
Qed.
End AnalyzerClaims.

(* ===================================================================== *)
(** * Concrete runs *)
(* ===================================================================== *)

(** A policy with a minimum of two characters asked for two: the answer
    has four. *)
Lemma generate_length_below_four_run :
  min_length (_policy (mkGenerator (mkPolicy 2 true true true true))) <= 2
  /\ 2 < 4
  /\ exists pw r',
       @PasswordGeneratorM.generate ascii_only
         (mkGenerator (mkPolicy 2 true true true true)) 2 1 sample_rng
       = (Return pw, r')
       /\ PasswordM.length pw = 4
       /\ PasswordM.length pw <> 2.
Proof.
  split; [simpl; lia|]. split; [lia|].
  apply (@generate_length_below_four ascii_only); simpl; lia.
Defined.

(** The default policy (minimum eight) asked for seven characters. *)
Lemma generate_below_minimum_run :
  7 < min_length (_policy (mkGenerator PasswordPolicyM.default))
  /\ @PasswordGeneratorM.generate ascii_only
       (mkGenerator PasswordPolicyM.default) 7 3 sample_rng
     = (Raise (ValueError "Length below policy minimum"), sample_rng).
Proof.
  split; [simpl; lia|].
  apply (@generate_below_minimum_raises ascii_only); simpl; lia.
Defined.

(** The default policy asked for the default twelve characters. *)
Lemma generate_first_pass_run :
  min_length (_policy (mkGenerator PasswordPolicyM.default)) <= 12
  /\ 4 <= 12
  /\ exists pw r',
       PasswordGeneratorM.candidate 12 sample_rng = (Return pw, r')
       /\ PasswordM.length pw = 12
       /\ @PasswordPolicyM.validate ascii_only
            (_policy (mkGenerator PasswordPolicyM.default)) pw = true
       /\ forall fuel,
            @PasswordGeneratorM.generate ascii_only
              (mkGenerator PasswordPolicyM.default) 12 (S fuel) sample_rng
            = (Return pw, r').
Proof.
  split; [simpl; lia|]. split; [lia|].
  apply (@generate_first_pass_returns ascii_only); simpl; lia.
Defined.

(* ===================================================================== *)
(** * Further properties of the module *)
(* ===================================================================== *)

(** ** Passwords and policies *)

Lemma repeat_app_inj {A : Type} (a b : A) (n1 n2 : nat) (t1 t2 : list A) :
  a <> b ->
  List.repeat a n1 ++ b :: t1 = List.repeat a n2 ++ b :: t2 ->
  n1 = n2.
Proof.
  intros Hab. revert n2.
  induction n1 as [|n1 IH]; intros [|n2] H; simpl in H;
    try reflexivity; try (injection H as H _; congruence).
  injection H as H. f_equal. now apply IH.
Qed.

Section PolicyFacts.
Context {U : UnicodeData}.

Lemma validate_true_iff (self : PasswordPolicy) (pw : Password) :
  PasswordPolicyM.validate self pw = true
  <-> (min_length self <= PasswordM.length pw
       /\ (require_upper self = true -> PasswordM.contains_uppercase pw = true)
       /\ (require_lower self = true -> PasswordM.contains_lowercase pw = true)
       /\ (require_digit self = true -> PasswordM.contains_digit pw = true)
       /\ (require_special self = true
           -> PasswordM.contains_special pw = true)).
Proof.
  unfold PasswordPolicyM.validate, all. cbn [List.forallb].
  rewrite !andb_true_iff, Z.geb_le.
  destruct (require_upper self), (require_lower self),
    (require_digit self), (require_special self); cbn [negb orb];
    intuition congruence.
Qed.
End PolicyFacts.

Section PasswordProperties.
Context {U : UnicodeData} {F : FloatOps}.

(** X1: [Password(v)] succeeds exactly when [v] is a non-empty string,
    and then [value] gives that string back; a value that is no string
    raises the [TypeError]. *)
Theorem password_init_roundtrip (v : pyobj) :
  (forall pw,
     PasswordM.__init__ v = Ok pw
     <-> v = PyStr (PasswordM.value pw) /\ PasswordM.value pw <> [])
  /\ ((forall s, v <> PyStr s)
      -> PasswordM.__init__ v = Err (TypeError "Password must be a string")).
Proof.
  split.
  - intros [s]. unfold PasswordM.value. cbn [_value]. split.
    + destruct v as [[|c t]| |]; cbn; intros H; try discriminate.
      injection H as <-. split; [reflexivity | discriminate].
    + intros [-> Hs]. destruct s; [congruence | reflexivity].
  - intros H. destruct v as [s| |]; [|reflexivity|reflexivity].
    now destruct (H s).
Qed.

(** X2: the text [str(password)] tells the length of a password and
    nothing else: two passwords print alike exactly when they are
    equally long. *)
Theorem password_str_only_length (pw1 pw2 : Password) :
  PasswordM.__str__ pw1 = PasswordM.__str__ pw2
  <-> PasswordM.length pw1 = PasswordM.length pw2.
Proof.
  unfold PasswordM.__str__. rewrite !masked_repeat. split.
  - intros H. apply app_inv_head in H.
    set (t1 := str_of_int (PasswordM.length pw1) ++ lit ")") in H.
    set (t2 := str_of_int (PasswordM.length pw2) ++ lit ")") in H.
    change (lit "', length=" ++ t1) with (39%N :: (lit ", length=" ++ t1)) in H.
    change (lit "', length=" ++ t2) with (39%N :: (lit ", length=" ++ t2)) in H.
    apply repeat_app_inj in H; [|discriminate].
    unfold PasswordM.length, len. now rewrite H.
  - intros H. rewrite H.
    unfold PasswordM.length, len in H. apply Nat2Z.inj in H.
    now rewrite H.
Qed.

(** X3: a password a policy accepts is accepted by every policy that
    asks no more (a minimum no larger, no further requirement). *)
Theorem validate_relaxed (p' p : PasswordPolicy) (pw : Password) :
  relaxes p' p ->
  PasswordPolicyM.validate p pw = true ->
  PasswordPolicyM.validate p' pw = true.
Proof.
  intros (Hm & Hu & Hl & Hd & Hs). rewrite !validate_true_iff.
  intros (H0 & H1 & H2 & H3 & H4).
  repeat split; auto. lia.
Qed.

(** X4: the strength of a password is "Strong" exactly when the default
    policy (eight characters, all four classes) accepts it. *)
Theorem strong_iff_default_policy (self : AbstractPasswordAnalyzer) :
  BasicPasswordAnalyzer.strength self = lit "Strong"
  <-> PasswordPolicyM.validate PasswordPolicyM.default (_password self) = true.
Proof.
  unfold BasicPasswordAnalyzer.strength, BasicPasswordAnalyzer.score,
    PasswordPolicyM.validate, PasswordPolicyM.default.
  cbn [min_length require_upper require_lower require_digit require_special].
  destruct (PasswordM.length (_password self) >=? 8),
    (PasswordM.contains_lowercase (_password self)),
    (PasswordM.contains_uppercase (_password self)),
    (PasswordM.contains_digit (_password self)),
    (PasswordM.contains_special (_password self));
    cbn; split; intros H; try reflexivity; discriminate.
Qed.
End PasswordProperties.

(** ** Repeated patterns as squares *)

Lemma skipn_length_app {A : Type} (u t : list A) :
  List.skipn (List.length u) (u ++ t) = t.
Proof. induction u as [|a u IH]; simpl; auto. Qed.

Lemma firstn_length_app {A : Type} (w t : list A) :
  List.firstn (List.length w) (w ++ t) = w.
Proof. induction w as [|a w IH]; simpl; [reflexivity | now rewrite IH]. Qed.

(** Equal adjacent blocks at an offset are a factor [w ++ w] of the
    string. *)
Lemma adjacent_blocks_square (v : str) :
  (exists s i : nat,
     (1 <= s <= List.length v / 2)%nat
     /\ (i <= List.length v - 2 * s)%nat
     /\ substring v i (i + s) = substring v (i + s) (i + 2 * s))
  <-> exists u w t : str, w <> [] /\ v = u ++ w ++ w ++ t.
Proof.
  unfold substring. split.
  - intros (s & i & Hs & Hi & Heq).
    pose proof (proj1 (le_half _ _) (proj2 Hs)) as H2s.
    replace (i + s - i)%nat with s in Heq by lia.
    replace (i + 2 * s - (i + s))%nat with s in Heq by lia.
    replace (i + s)%nat with (s + i)%nat in Heq by lia.
    rewrite <- skipn_skipn in Heq.
    set (rest := List.skipn i v) in *.
    assert (Hrest : List.length rest = (List.length v - i)%nat)
      by apply length_skipn.
    exists (List.firstn i v), (List.firstn s rest),
      (List.skipn s (List.skipn s rest)).
    split.
    + intros Hnil. apply (f_equal (@List.length char)) in Hnil.
      rewrite length_firstn in Hnil. simpl in Hnil. lia.
    + rewrite Heq at 2.
      rewrite (firstn_skipn s (List.skipn s rest)).
      rewrite (firstn_skipn s rest).
      unfold rest. now rewrite firstn_skipn.
  - intros (u & w & t & Hw & ->).
    exists (List.length w), (List.length u).
    rewrite !length_app.
    split; [split|split].
    + destruct w; [congruence | simpl; lia].
    + apply le_half. lia.
    + lia.
    + replace (List.length u + List.length w - List.length u)%nat
        with (List.length w) by lia.
      replace (List.length u + 2 * List.length w
               - (List.length u + List.length w))%nat
        with (List.length w) by lia.
      rewrite skipn_length_app, firstn_length_app.
      replace (u ++ w ++ w ++ t) with ((u ++ w) ++ w ++ t)
        by now rewrite <- app_assoc.
      rewrite <- length_app, skipn_length_app, firstn_length_app.
      reflexivity.
Qed.

Section RepeatedPatterns.
Context {U : UnicodeData} {F : FloatOps}.

(** What [has_repeated_patterns] looks for, offset by offset. *)
Lemma repeated_patterns_index (self : AbstractPasswordAnalyzer) :
  AdvancedPasswordAnalyzer.has_repeated_patterns self = true
  <-> exists s i : nat,
        (1 <= s <= List.length (_value (_password self)) / 2)%nat
        /\ (i <= List.length (_value (_password self)) - 2 * s)%nat
        /\ substring (_value (_password self)) i (i + s)
           = substring (_value (_password self)) (i + s) (i + 2 * s).
Proof.
  unfold AdvancedPasswordAnalyzer.has_repeated_patterns, PasswordM.value.
  set (pw := _value (_password self)).
  unfold len. rewrite half_of_nat, existsb_exists. split.
  - intros (size & Hsize & Hex).
    apply existsb_exists in Hex. destruct Hex as (start & Hstart & Heq).
    apply in_range in Hsize. apply in_range in Hstart.
    apply str_eqb_eq in Heq.
    exists (Z.to_nat size), (Z.to_nat start).
    assert (Hs : (Z.to_nat size <= List.length pw / 2)%nat) by lia.
    pose proof (proj1 (le_half _ _) Hs) as H2s.
    split; [lia|]. split; [lia|].
    rewrite <- !slice_substring by lia.
    replace (Z.of_nat (Z.to_nat start)) with start by lia.
    replace (Z.of_nat (Z.to_nat start + Z.to_nat size)) with (start + size)
      by lia.
    replace (Z.of_nat (Z.to_nat start + 2 * Z.to_nat size))
      with (start + 2 * size) by lia.
    exact Heq.
  - intros (s & i & Hs & Hi & Heq).
    pose proof (proj1 (le_half _ _) (proj2 Hs)) as H2s.
    exists (Z.of_nat s). split; [apply in_range; lia|].
    apply existsb_exists. exists (Z.of_nat i).
    split; [apply in_range; lia|].
    apply str_eqb_eq.
    replace (Z.of_nat i + Z.of_nat s) with (Z.of_nat (i + s)) by lia.
    replace (Z.of_nat i + 2 * Z.of_nat s) with (Z.of_nat (i + 2 * s)) by lia.
    rewrite !slice_substring by lia.
    exact Heq.
Qed.

(** A password has a repeated pattern exactly when it has a factor
    [w ++ w] with [w] not empty. *)
Lemma repeated_patterns_square (v : str) :
  AdvancedPasswordAnalyzer.has_repeated_patterns (mkAnalyzer (mkPassword v))
  = true
  <-> exists u w t : str, w <> [] /\ v = u ++ w ++ w ++ t.
Proof.
  rewrite repeated_patterns_index. cbn [_password _value].
  apply adjacent_blocks_square.
Qed.

(** X5: a repeated pattern is not lost when text is put before or
    after the password: if [s] has one, so has [a ++ s ++ b]. *)
Theorem has_repeats_embedded (a s b : str) :
  AdvancedPasswordAnalyzer.has_repeated_patterns (mkAnalyzer (mkPassword s))
  = true ->
  AdvancedPasswordAnalyzer.has_repeated_patterns
    (mkAnalyzer (mkPassword (a ++ s ++ b))) = true.
Proof.
  rewrite !repeated_patterns_square.
  intros (u & w & t & Hw & ->).
  exists (a ++ u), w, (t ++ b). split; [exact Hw|].
  now rewrite <- !app_assoc.
Qed.

(** X6: reading a password backwards does not change whether it has a
    repeated pattern. *)
Theorem has_repeats_reverse (s : str) :
  AdvancedPasswordAnalyzer.has_repeated_patterns
    (mkAnalyzer (mkPassword (List.rev s)))
  = AdvancedPasswordAnalyzer.has_repeated_patterns
      (mkAnalyzer (mkPassword s)).
Proof.
  assert (Hrev : forall v : str,
             AdvancedPasswordAnalyzer.has_repeated_patterns
               (mkAnalyzer (mkPassword v)) = true ->
             AdvancedPasswordAnalyzer.has_repeated_patterns
               (mkAnalyzer (mkPassword (List.rev v))) = true).
  { intros v. rewrite !repeated_patterns_square.
    intros (u & w & t & Hw & ->).
    exists (List.rev t), (List.rev w), (List.rev u). split.
    - intros Hnil. apply (f_equal (@List.rev char)) in Hnil.
      rewrite rev_involutive in Hnil. now apply Hw.
    - rewrite !rev_app_distr, <- !app_assoc. reflexivity. }
  apply eq_true_iff_eq. split; intros H.
  - apply Hrev in H. now rewrite rev_involutive in H.
  - now apply Hrev.
Qed.

(** X7: a password of fewer than two characters has no repeated
    pattern, and one in which a character is doubled has one. *)
Theorem has_repeats_short_and_doubled (s : str) :
  ((List.length s < 2)%nat ->
   AdvancedPasswordAnalyzer.has_repeated_patterns (mkAnalyzer (mkPassword s))
   = false)
  /\ (forall (u t : str) (c : char),
        s = u ++ [c; c] ++ t ->
        AdvancedPasswordAnalyzer.has_repeated_patterns
          (mkAnalyzer (mkPassword s)) = true).
Proof.
  split.
  - intros Hlen. apply not_true_is_false. rewrite repeated_patterns_square.
    intros (u & w & t & Hw & ->).
    rewrite !length_app in Hlen.
    destruct w; [congruence | simpl in Hlen; lia].
  - intros u t c ->. apply repeated_patterns_square.
    exists u, [c], t. split; [discriminate | reflexivity].
Qed.
End RepeatedPatterns.

(** ** The draws of one pass *)

Lemma after_after (r : rng) (n m : nat) :
  after (after r n) m = after r (n + m).
Proof. unfold after. cbn [tape pos]. f_equal. lia. Qed.

Lemma randbelow_draw (n : nat) (r : rng) :
  (0 < n)%nat ->
  exists j, randbelow n r = (Return j, after r 1) /\ (j < n)%nat.
Proof.
  intros Hn. unfold randbelow, after. eexists. split.
  - f_equal. f_equal. lia.
  - apply Nat.mod_upper_bound. lia.
Qed.

Lemma choice_draw (s : str) (r : rng) :
  s <> [] ->
  exists c, In c s /\ choice s r = (Return [c], after r 1).
Proof.
  intros Hs. destruct s as [|c0 s0]; [congruence|].
  unfold choice, bind.
  destruct (randbelow_draw (List.length (c0 :: s0)) r) as (j & Ej & Hj);
    [simpl; lia|].
  rewrite Ej.
  destruct (str_item_inside (c0 :: s0) j (after r 1) Hj) as (c & Hc & Ec).
  exists c. split; assumption.
Qed.

Lemma choices_n_draw (population : str) (k : nat) (r : rng) :
  population <> [] ->
  exists l,
    choices_n population k r = (Return l, after r k)
    /\ List.length l = k
    /\ Forall (fun p => exists c, p = [c] /\ In c population) l.
Proof.
  intros Hp. revert r. induction k as [|k IH]; intros r; simpl.
  - exists []. repeat split; [|constructor].
    unfold ret, after. destruct r as [t p]. cbn. do 2 f_equal. lia.
  - unfold bind.
    destruct (randbelow_draw (List.length population) r) as (j & Ej & Hj).
    { destruct population; [congruence | simpl; lia]. }
    rewrite Ej.
    destruct (str_item_inside population j (after r 1) Hj) as (c & Hc & Ec).
    rewrite Ec.
    destruct (IH (after r 1)) as (l & El & Hlen & Hall).
    rewrite El. exists ([c] :: l). repeat split.
    + unfold ret. now rewrite after_after.
    + simpl. now rewrite Hlen.
    + constructor; [exists c; auto | assumption].
Qed.

Lemma shuffle_from_draw {A : Type}
      (eq_dec : forall a b : A, {a = b} + {a <> b})
      (indices : list Z) (x : list A) (r : rng) :
  Forall (fun i => 0 <= i < len x) indices ->
  exists x',
    shuffle_from x indices r = (Return x', after r (List.length indices))
    /\ Permutation x x'.
Proof.
  revert x r. induction indices as [|i rest IH]; intros x r Hall; simpl.
  - exists x. split; [|apply Permutation_refl].
    unfold ret, after. destruct r as [t p]. cbn. do 2 f_equal. lia.
  - inversion Hall as [|? ? Hi Hrest]; subst. unfold len in Hi.
    unfold bind.
    destruct (randbelow_draw (Z.to_nat (i + 1)) r) as (j & Ej & Hj); [lia|].
    rewrite Ej.
    destruct (swap_permutation eq_dec x (Z.to_nat i) j) as (x1 & Es & Hp);
      [lia | lia |].
    rewrite Es.
    destruct (IH x1 (after r 1)) as (x2 & E2 & Hp2).
    { unfold len. rewrite <- (Permutation_length Hp). exact Hrest. }
    exists x2. split; [|eapply Permutation_trans; eauto].
    rewrite E2, after_after. reflexivity.
Qed.

Lemma length_range (lo hi : Z) :
  List.length (range lo hi) = Z.to_nat (hi - lo).
Proof. unfold range. now rewrite length_map, length_seq. Qed.

Lemma shuffle_draw {A : Type}
      (eq_dec : forall a b : A, {a = b} + {a <> b})
      (x : list A) (r : rng) :
  exists x',
    shuffle x r = (Return x', after r (List.length x - 1))
    /\ Permutation x x'.
Proof.
  unfold shuffle.
  destruct (shuffle_from_draw eq_dec (List.rev (range 1 (len x))) x r)
    as (x' & E & Hp).
  { apply Forall_forall. intros i Hi. apply in_rev, in_range in Hi. lia. }
  exists x'. split; [|exact Hp].
  rewrite E, length_rev, length_range. unfold len. do 2 f_equal. lia.
Qed.

Lemma in_concat_singletons {A : Type} (P : A -> Prop) (l : list (list A)) :
  Forall (fun p => exists c, p = [c] /\ P c) l ->
  Forall P (List.concat l).
Proof.
  induction 1 as [|p l (c & -> & Hc) _ IH]; simpl; [constructor|].
  constructor; assumption.
Qed.

(** A pass draws only from the generator's alphabet, and makes
    [2 n - 1] draws for a password of [n] characters: four seeds, the
    padding and the [n - 1] exchanges of the shuffle. *)
Lemma candidate_alphabet_draws (length : Z) (r : rng) :
  exists pw,
    PasswordGeneratorM.candidate length r
    = (Return pw, after r (2 * Z.to_nat (Z.max 4 length) - 1))
    /\ Forall (fun c => In c (ascii_letters ++ digits ++ punctuation))
              (_value pw).
Proof.
  unfold PasswordGeneratorM.candidate, bind.
  destruct (choice_draw ascii_uppercase r) as (c1 & H1 & E1);
    [discriminate|]. rewrite E1. cbv beta iota zeta.
  destruct (choice_draw ascii_lowercase (after r 1)) as (c2 & H2 & E2);
    [discriminate|]. rewrite E2. cbv beta iota zeta.
  destruct (choice_draw digits (after (after r 1) 1)) as (c3 & H3 & E3);
    [discriminate|]. rewrite E3. cbv beta iota zeta.
  destruct (choice_draw punctuation (after (after (after r 1) 1) 1))
    as (c4 & H4 & E4); [discriminate|]. rewrite E4. cbv beta iota zeta.
  rewrite !after_after. unfold choices.
  match goal with
  | |- context [choices_n _ _ ?r4] =>
      destruct (choices_n_draw (ascii_letters ++ digits ++ punctuation)
                               (Z.to_nat (length - 4)) r4)
        as (pad & E5 & Hlen & Hpad); [discriminate|]
  end.
  rewrite E5. cbv beta iota zeta. rewrite after_after.
  match goal with
  | |- context [shuffle ?l ?r5] =>
      set (chars := l);
      destruct (shuffle_draw str_eq_dec chars r5) as (x & E6 & Hp)
  end.
  rewrite E6. cbv beta iota zeta. rewrite join_empty_sep, after_after.
  assert (Hlenc : List.length chars = (4 + Z.to_nat (length - 4))%nat).
  { unfold chars. rewrite length_app, Hlen. reflexivity. }
  assert (Hall : Forall (fun p : str =>
                           exists c, p = [c]
                                     /\ In c (ascii_letters ++ digits
                                                ++ punctuation)) x).
  { eapply Permutation_Forall; [exact Hp|]. unfold chars.
    apply Forall_app. split; [|exact Hpad].
    repeat constructor; eexists; (split; [reflexivity|]);
      unfold ascii_letters; rewrite ?in_app_iff; auto. }
  assert (Hone : Forall (fun p : str => List.length p = 1%nat) x).
  { eapply Forall_impl; [|exact Hall]. intros p (c & -> & _). reflexivity. }
  pose proof (concat_singletons_length x Hone) as Hc.
  pose proof (Permutation_length Hp) as Hl.
  assert (Hx : List.length (List.concat x) = (4 + Z.to_nat (length - 4))%nat).
  { etransitivity; [exact Hc|].
    etransitivity; [symmetry; exact Hl | exact Hlenc]. }
  destruct (List.concat x) as [|c0 rest] eqn:Ex; [discriminate Hx|].
  exists (mkPassword (c0 :: rest)). split.
  - cbn [PasswordM.__init__ lift ret]. unfold ret. do 2 f_equal.
    rewrite Hlenc. lia.
  - cbn [_value]. rewrite <- Ex.
    now apply (in_concat_singletons
                 (fun c => In c (ascii_letters ++ digits ++ punctuation))).
Qed.

(** ** Generated passwords *)

Section GeneratedPasswords.
Context {U : UnicodeData} {F : FloatOps}.

(** All that is known of the password [generate] returns. *)
Lemma generate_result (self : PasswordGenerator) (length : Z) (fuel : nat)
      (r : rng) :
  min_length (_policy self) <= length ->
  exists pw,
    PasswordGeneratorM.candidate length r
    = (Return pw, after r (2 * Z.to_nat (Z.max 4 length) - 1))
    /\ PasswordGeneratorM.generate self length (S fuel) r
       = (Return pw, after r (2 * Z.to_nat (Z.max 4 length) - 1))
    /\ PasswordM.length pw = Z.max 4 length
    /\ PasswordM.contains_uppercase pw = true
    /\ PasswordM.contains_lowercase pw = true
    /\ PasswordM.contains_digit pw = true
    /\ PasswordM.contains_special pw = true
    /\ Forall (fun c => In c (ascii_letters ++ digits ++ punctuation))
              (_value pw).
Proof.
  intros Hmin.
  destruct (candidate_alphabet_draws length r) as (pw & E & Hall).
  destruct (candidate_classes length r)
    as (pw' & r' & E' & Hlen & Hu & Hl & Hd & Hs).
  rewrite E in E'. injection E' as <- _.
  exists pw. repeat split; try assumption.
  unfold PasswordGeneratorM.generate.
  destruct (Z.ltb_spec length (min_length (_policy self))); [lia|].
  apply generate_loop_first_pass; [exact E|].
  apply validate_true_iff. rewrite Hlen. repeat split; auto. lia.
Qed.

Lemma alphabet_is_ascii (c : char) :
  In c (ascii_letters ++ digits ++ punctuation) -> is_ascii c = true.
Proof.
  assert (H : List.forallb is_ascii (ascii_letters ++ digits ++ punctuation)
              = true) by reflexivity.
  rewrite forallb_forall in H. apply H.
Qed.

Lemma punctuation_lower_fixed (c : char) :
  is_punctuation c = true -> ascii_lower_char c = c.
Proof.
  unfold is_punctuation. rewrite existsb_exists.
  intros (x & Hx & Heq). apply N.eqb_eq in Heq. subst x.
  assert (H : List.forallb (fun c => N.eqb (ascii_lower_char c) c) punctuation
              = true) by reflexivity.
  rewrite forallb_forall in H. apply N.eqb_eq. now apply H.
Qed.

(** Lowering an ASCII string keeps its punctuation. *)
Lemma lower_keeps_punctuation (s : str) :
  List.forallb is_ascii s = true ->
  List.existsb is_punctuation (lower s) = List.existsb is_punctuation s.
Proof.
  intros Hs. unfold lower. rewrite Hs. clear Hs.
  induction s as [|c s IH]; [reflexivity|].
  cbn [List.map List.existsb]. rewrite IH. f_equal.
  destruct (is_punctuation c) eqn:Ec.
  - now rewrite (punctuation_lower_fixed c Ec).
  - unfold ascii_lower_char.
    destruct ((65 <=? c) && (c <=? 90))%N eqn:Eu; [|exact Ec].
    apply andb_true_iff in Eu. destruct Eu as [H1 H2].
    apply N.leb_le in H1, H2.
    apply not_true_is_false. unfold is_punctuation.
    rewrite existsb_exists. intros (x & Hx & Heq).
    apply N.eqb_eq in Heq. subst x.
    assert (H : List.forallb
                  (fun p => negb ((97 <=? p) && (p <=? 122))%N) punctuation
                = true) by reflexivity.
    rewrite forallb_forall in H. specialize (H _ Hx).
    apply negb_true_iff, andb_false_iff in H.
    destruct H as [H|H]; apply N.leb_gt in H; lia.
Qed.

(** No entry of [COMMON_PASSWORDS] holds punctuation and each has six
    or eight characters. *)
Lemma common_entry_shape (t : str) :
  str_in t BasicPasswordAnalyzer.COMMON_PASSWORDS = true ->
  List.existsb is_punctuation t = false
  /\ (List.length t = 6%nat \/ List.length t = 8%nat).
Proof.
  unfold str_in, BasicPasswordAnalyzer.COMMON_PASSWORDS.
  cbn [List.existsb]. rewrite !orb_true_iff, !str_eqb_eq.
  intros [->|[->|[->|[->|H]]]]; try discriminate;
    (split; [reflexivity | cbn; auto]).
Qed.

(** The value stored under [is_common]. *)
Lemma analyze_is_common (self : AbstractPasswordAnalyzer) :
  dict_get (BasicPasswordAnalyzer.analyze self) (lit "is_common")
  = Some (VBool (str_in (lower (PasswordM.value (_password self)))
                        BasicPasswordAnalyzer.COMMON_PASSWORDS)).
Proof. rewrite basic_analyze_items. reflexivity. Qed.

(** A password over the generator's alphabet that holds punctuation is
    no common password. *)
Lemma alphabet_not_common (pw : Password) :
  Forall (fun c => In c (ascii_letters ++ digits ++ punctuation))
         (_value pw) ->
  PasswordM.contains_special pw = true ->
  str_in (lower (PasswordM.value pw)) BasicPasswordAnalyzer.COMMON_PASSWORDS
  = false.
Proof.
  intros Hall Hs. apply not_true_is_false. intros Hc.
  apply common_entry_shape in Hc. destruct Hc as [Hc _].
  rewrite lower_keeps_punctuation in Hc.
  - unfold PasswordM.contains_special in Hs. unfold PasswordM.value in Hc.
    congruence.
  - apply forallb_forall. intros c Hin.
    rewrite Forall_forall in Hall. apply alphabet_is_ascii, Hall, Hin.
Qed.

(** Eight characters or more with all four classes: "Strong", and the
    entropy of the full pool. *)
Lemma full_classes_strong (pw : Password) :
  8 <= PasswordM.length pw ->
  PasswordM.contains_uppercase pw = true ->
  PasswordM.contains_lowercase pw = true ->
  PasswordM.contains_digit pw = true ->
  PasswordM.contains_special pw = true ->
  BasicPasswordAnalyzer.strength (mkAnalyzer pw) = lit "Strong"
  /\ BasicPasswordAnalyzer.entropy (mkAnalyzer pw)
     = round (int_mul_float (PasswordM.length pw) (math_log2 94)) 2.
Proof.
  intros H8 Hu Hl Hd Hs.
  unfold BasicPasswordAnalyzer.strength, BasicPasswordAnalyzer.score,
    BasicPasswordAnalyzer.entropy.
  rewrite pool_by_class. cbn [_password].
  rewrite Hu, Hl, Hd, Hs.
  destruct (Z.geb_spec (PasswordM.length pw) 8); [|lia].
  split; reflexivity.
Qed.

(** X8: [generate] draws every character of its password from the
    94 ASCII letters, digits and punctuation marks, and the password is
    never one of the common passwords: its analysis has [is_common]
    false. *)
Theorem generate_never_common (self : PasswordGenerator) (length : Z)
        (fuel : nat) (r : rng) :
  min_length (_policy self) <= length ->
  exists pw r',
    PasswordGeneratorM.generate self length (S fuel) r = (Return pw, r')
    /\ Forall (fun c => In c (ascii_letters ++ digits ++ punctuation))
              (PasswordM.value pw)
    /\ dict_get (BasicPasswordAnalyzer.analyze (mkAnalyzer pw))
                (lit "is_common")
       = Some (VBool false).
Proof.
  intros Hmin.
  destruct (generate_result self length fuel r Hmin)
    as (pw & _ & E & _ & _ & _ & _ & Hs & Hall).
  exists pw, (after r (2 * Z.to_nat (Z.max 4 length) - 1)).
  split; [exact E|]. split; [exact Hall|].
  rewrite analyze_is_common. cbn [_password].
  now rewrite (alphabet_not_common pw Hall Hs).
Qed.

(** X9: a password generated with a length of eight or more is rated
    "Strong", and its entropy is that of the full pool of 94 characters:
    [round(length * log2(94), 2)]. *)
Theorem generate_strong (self : PasswordGenerator) (length : Z)
        (fuel : nat) (r : rng) :
  min_length (_policy self) <= length ->
  8 <= length ->
  exists pw r',
    PasswordGeneratorM.generate self length (S fuel) r = (Return pw, r')
    /\ BasicPasswordAnalyzer.strength (mkAnalyzer pw) = lit "Strong"
    /\ BasicPasswordAnalyzer.entropy (mkAnalyzer pw)
       = round (int_mul_float length (math_log2 94)) 2.
Proof.
  intros Hmin H8.
  destruct (generate_result self length fuel r Hmin)
    as (pw & _ & E & Hlen & Hu & Hl & Hd & Hs & _).
  exists pw, (after r (2 * Z.to_nat (Z.max 4 length) - 1)).
  split; [exact E|].
  rewrite Z.max_r in Hlen by lia.
  rewrite <- Hlen. apply full_classes_strong; auto. lia.
Qed.

(** X10: the policy's class requirements and the fuel never change what
    [generate] returns: two generators whose minimum the length reaches
    return the same password and leave the same state from equal draws. *)
Theorem generate_ignores_requirements
        (g1 g2 : PasswordGenerator) (length : Z) (f1 f2 : nat) (r : rng) :
  min_length (_policy g1) <= length ->
  min_length (_policy g2) <= length ->
  PasswordGeneratorM.generate g1 length (S f1) r
  = PasswordGeneratorM.generate g2 length (S f2) r.
Proof.
  intros H1 H2.
  destruct (generate_result g1 length f1 r H1) as (pw1 & C1 & E1 & _).
  destruct (generate_result g2 length f2 r H2) as (pw2 & C2 & E2 & _).
  rewrite C1 in C2. injection C2 as <-.
  now rewrite E1, E2.
Qed.

(** X11: a successful [generate] makes [2 n - 1] draws, [n] being the
    larger of the length and four, and leaves the tape as it was. *)
Theorem generate_draw_count (self : PasswordGenerator) (length : Z)
        (fuel : nat) (r : rng) :
  min_length (_policy self) <= length ->
  exists pw,
    PasswordGeneratorM.generate self length (S fuel) r
    = (Return pw, mkRng (tape r)
                        (pos r + (2 * Z.to_nat (Z.max 4 length) - 1))).
Proof.
  intros Hmin.
  destruct (generate_result self length fuel r Hmin) as (pw & _ & E & _).
  exists pw. exact E.
Qed.

(** X12: a password in ASCII that the analysis calls common has six or
    eight characters and no punctuation, so its strength is never
    "Strong". *)
Theorem common_never_strong (self : AbstractPasswordAnalyzer) :
  List.forallb is_ascii (PasswordM.value (_password self)) = true ->
  dict_get (BasicPasswordAnalyzer.analyze self) (lit "is_common")
  = Some (VBool true) ->
  (PasswordM.length (_password self) = 6
   \/ PasswordM.length (_password self) = 8)
  /\ PasswordM.contains_special (_password self) = false
  /\ BasicPasswordAnalyzer.strength self <> lit "Strong".
Proof.
  intros Hascii Hc. rewrite analyze_is_common in Hc.
  injection Hc as Hc. apply common_entry_shape in Hc.
  destruct Hc as [Hp Hlen].
  rewrite (lower_keeps_punctuation _ Hascii) in Hp.
  assert (Hs : PasswordM.contains_special (_password self) = false)
    by exact Hp.
  split; [|split; [exact Hs|]].
  - unfold lower in Hlen. rewrite Hascii, length_map in Hlen.
    unfold PasswordM.length, PasswordM.value, len in *.
    destruct Hlen as [-> | ->]; auto.
  - unfold BasicPasswordAnalyzer.strength, BasicPasswordAnalyzer.score.
    rewrite Hs.
    destruct (PasswordM.length (_password self) >=? 8),
      (PasswordM.contains_lowercase (_password self)),
      (PasswordM.contains_uppercase (_password self)),
      (PasswordM.contains_digit (_password self)); cbn; discriminate.
Qed.
End GeneratedPasswords.

(** ** Reports *)

Lemma fold_left_append_map {A B : Type} (f : A -> B) (items : list A)
      (init : list B) :
  List.fold_left (fun acc item => acc ++ [f item]) items init
  = init ++ List.map f items.
Proof.
  revert init. induction items as [|a items IH]; intros init; simpl.
  - now rewrite app_nil_r.
  - rewrite IH, <- app_assoc. reflexivity.
Qed.

Lemma join_snoc (sep : str) (parts : list str) (p : str) :
  parts <> [] ->
  join sep (parts ++ [p]) = join sep parts ++ sep ++ p.
Proof.
  induction parts as [|a parts IH]; [congruence|]. intros _.
  destruct parts as [|b parts].
  - reflexivity.
  - change (join sep ((a :: b :: parts) ++ [p]))
      with (a ++ sep ++ join sep ((b :: parts) ++ [p])).
    rewrite IH by discriminate.
    change (join sep (a :: b :: parts))
      with (a ++ sep ++ join sep (b :: parts)).
    now rewrite <- !app_assoc.
Qed.

Lemma lines_text_cons (a : str) (rest : list str) :
  lines_text (a :: rest) = (a ++ [10%N]) ++ lines_text rest.
Proof. reflexivity. Qed.

Lemma join_newline_lines (parts : list str) :
  parts <> [] ->
  join [10%N] parts ++ [10%N] = lines_text parts.
Proof.
  induction parts as [|a parts IH]; [congruence|]. intros _.
  destruct parts as [|b parts].
  - unfold lines_text. simpl. now rewrite app_nil_r.
  - rewrite lines_text_cons, <- IH by discriminate.
    change (join [10%N] (a :: b :: parts))
      with (a ++ [10%N] ++ join [10%N] (b :: parts)).
    now rewrite <- !app_assoc.
Qed.

Lemma lines_text_app (a b : list str) :
  lines_text (a ++ b) = lines_text a ++ lines_text b.
Proof. unfold lines_text. apply flat_map_app. Qed.

Section ReportProperties.
Context {U : UnicodeData} {F : FloatOps} {T : UnicodeTitle} {P : FloatFormat}.

Lemma report_lines_map (d : dict) :
  report_lines (mkReport d)
  = [lit "Password Analysis Report"; lit "------------------------"]
    ++ List.map report_line d.
Proof. unfold report_lines. cbn [_analysis]. apply fold_left_append_map. Qed.

Lemma report_lines_nonempty (rep : PasswordReport) : report_lines rep <> [].
Proof. destruct rep as [d]. rewrite report_lines_map. discriminate. Qed.

Lemma print_report (stdout : str) (rep : PasswordReport) :
  print stdout (report_str rep) = stdout ++ lines_text (report_lines rep).
Proof.
  unfold print, report_str.
  now rewrite (join_newline_lines _ (report_lines_nonempty rep)).
Qed.


(** X14: the report of a Basic analysis, for every password: the two
    header lines, then the masked password, the length in decimal, the
    entropy, the strength and [is_common], under the labels Password,
    Length, Entropy, Strength and Is Common. *)
Theorem basic_report_lines (self : AbstractPasswordAnalyzer) :
  report_lines (run_analysis (Basic self))
  = [ lit "Password Analysis Report";
      lit "------------------------";
      lit "Password: " ++ PasswordM.masked (_password self);
      lit "Length: " ++ str_of_int (PasswordM.length (_password self));
      lit "Entropy: " ++ str_of_float (BasicPasswordAnalyzer.entropy self);
      lit "Strength: " ++ BasicPasswordAnalyzer.strength self;
      lit "Is Common: "
          ++ str_of_bool
               (str_in (lower (PasswordM.value (_password self)))
                       BasicPasswordAnalyzer.COMMON_PASSWORDS) ].
Proof.
  unfold run_analysis, analyze_method.
  rewrite report_lines_map, basic_analyze_items. reflexivity.
Qed.

(** X15: through [run_analysis], the report of the Advanced analyzer is
    the report of the Basic one on the same password followed by one
    more line, "Has Repeats: " and the result of
    [has_repeated_patterns]. *)
Theorem advanced_report_extends_basic (self : AbstractPasswordAnalyzer) :
  report_str (run_analysis (Advanced self))
  = report_str (run_analysis (Basic self))
    ++ [10%N] ++ lit "Has Repeats: "
    ++ str_of_bool (AdvancedPasswordAnalyzer.has_repeated_patterns self).
Proof.
  unfold report_str, run_analysis, analyze_method.
  rewrite !report_lines_map, advanced_analyze_items, map_app, app_assoc.
  cbn [List.map]. rewrite join_snoc by discriminate.
  reflexivity.
Qed.
End ReportProperties.

(** ** The demonstration *)

Section Demonstration.
Context {U : UnicodeData} {F : FloatOps} {T : UnicodeTitle} {P : FloatFormat}.

(** What [main] prints after the password is generated. *)
Lemma print_reports_lines (pw : Password) :
  print_reports (print [] (PasswordM.__str__ pw))
                [Basic (mkAnalyzer pw); Advanced (mkAnalyzer pw)]
  = lines_text
      ([PasswordM.__str__ pw; []]
         ++ report_lines (run_analysis (Basic (mkAnalyzer pw)))
         ++ [[]]
         ++ report_lines (run_analysis (Advanced (mkAnalyzer pw)))).
Proof.
  cbn [print_reports]. rewrite !print_report.
  rewrite !lines_text_app. unfold print.
  change (lines_text [PasswordM.__str__ pw; []])
    with ((PasswordM.__str__ pw ++ [10%N]) ++ ([] ++ [10%N]) ++ []).
  change (lines_text [[]]) with (([] : str) ++ [10%N] ++ []).
  rewrite ?app_nil_r, ?app_nil_l, <- ?app_assoc. reflexivity.
Qed.

(** X16: whatever the draws, [main] raises nothing and prints the same
    text but for one word: a password line that shows twelve mask
    characters, then the Basic and the Advanced report, each after an
    empty line, with the length 12, the entropy of the full pool, the
    strength "Strong" and [is_common] false; only the value printed
    after "Has Repeats: " depends on the draws. *)
Theorem main_output (fuel : nat) (r : rng) :
  exists b : bool,
    fst (main (S fuel) r)
    = Return
        (lines_text
           [ lit "Password(masked='************', length=12)";
             [];
             lit "Password Analysis Report";
             lit "------------------------";
             lit "Password: ************";
             lit "Length: 12";
             lit "Entropy: "
                 ++ str_of_float (round (int_mul_float 12 (math_log2 94)) 2);
             lit "Strength: Strong";
             lit "Is Common: False";
             [];
             lit "Password Analysis Report";
             lit "------------------------";
             lit "Password: ************";
             lit "Length: 12";
             lit "Entropy: "
                 ++ str_of_float (round (int_mul_float 12 (math_log2 94)) 2);
             lit "Strength: Strong";
             lit "Is Common: False";
             lit "Has Repeats: " ++ str_of_bool b ]).
Proof.
  unfold main, bind.
  destruct (generate_result (mkGenerator (mkPolicy 10 true true true true))
                            12 fuel r)
    as (pw & _ & E & Hlen & Hu & Hl & Hd & Hs & Hall); [cbn; lia|].
  rewrite E. cbn [fst ret].
  exists (AdvancedPasswordAnalyzer.has_repeated_patterns (mkAnalyzer pw)).
  unfold ret. cbn [fst]. f_equal.
  rewrite print_reports_lines. f_equal.
  change (Z.max 4 12) with 12 in Hlen.
  assert (Hn : List.length (_value pw) = 12%nat).
  { unfold PasswordM.length, len in Hlen. lia. }
  destruct (full_classes_strong pw) as [Hstrong Hent]; auto; [lia|].
  pose proof (alphabet_not_common pw Hall Hs) as Hcommon.
  unfold run_analysis, analyze_method.
  rewrite !report_lines_map, advanced_analyze_items, basic_analyze_items.
  unfold PasswordM.__str__. cbn [_password].
  rewrite Hstrong, Hent, Hcommon, !masked_repeat, Hlen, Hn.
  reflexivity.
Qed.
End Demonstration.

(** ** Longer passwords *)

Lemma existsb_embedded {A : Type} (f : A -> bool) (a s b : list A) :
  List.existsb f s = true -> List.existsb f (a ++ s ++ b) = true.
Proof.
  intros H. rewrite !existsb_app, H. now rewrite orb_true_r.
Qed.

Lemma b2z_le (b1 b2 : bool) :
  (b1 = true -> b2 = true) -> Z.b2z b1 <= Z.b2z b2.
Proof.
  destruct b1, b2; intros H; try (specialize (H eq_refl); discriminate);
    cbn; lia.
Qed.

Lemma ite_le (b1 b2 : bool) (k : Z) :
  0 <= k ->
  (b1 = true -> b2 = true) ->
  (if b1 then k else 0) <= (if b2 then k else 0).
Proof.
  destruct b1, b2; intros Hk H; try (specialize (H eq_refl); discriminate);
    lia.
Qed.

Section LongerPasswords.
Context {U : UnicodeData} {F : FloatOps}.

(** X17: characters put before or after a password never lower its
    strength score nor the pool of its entropy. *)
Theorem score_monotone (a s b : str) :
  BasicPasswordAnalyzer.score (mkAnalyzer (mkPassword s))
  <= BasicPasswordAnalyzer.score (mkAnalyzer (mkPassword (a ++ s ++ b)))
  /\ BasicPasswordAnalyzer.pool (mkAnalyzer (mkPassword s))
     <= BasicPasswordAnalyzer.pool (mkAnalyzer (mkPassword (a ++ s ++ b))).
Proof.
  split.
  - unfold BasicPasswordAnalyzer.score, sum_bools.
    cbn [List.fold_left _password].
    unfold PasswordM.contains_lowercase, PasswordM.contains_uppercase,
      PasswordM.contains_digit, PasswordM.contains_special,
      PasswordM.length, len.
    cbn [_value].
    pose proof (b2z_le _ _ (existsb_embedded islower a s b)).
    pose proof (b2z_le _ _ (existsb_embedded isupper a s b)).
    pose proof (b2z_le _ _ (existsb_embedded isdigit a s b)).
    pose proof (b2z_le _ _ (existsb_embedded is_punctuation a s b)).
    assert (Z.b2z (Z.of_nat (List.length s) >=? 8)
            <= Z.b2z (Z.of_nat (List.length (a ++ s ++ b)) >=? 8)).
    { apply b2z_le. rewrite !Z.geb_le, !length_app. lia. }
    lia.
  - rewrite !pool_by_class. unfold pool_of_classes.
    unfold PasswordM.contains_lowercase, PasswordM.contains_uppercase,
      PasswordM.contains_digit, PasswordM.contains_special.
    cbn [_password _value].
    pose proof (ite_le _ _ 26 ltac:(lia) (existsb_embedded isupper a s b)).
    pose proof (ite_le _ _ 26 ltac:(lia) (existsb_embedded islower a s b)).
    pose proof (ite_le _ _ 10 ltac:(lia) (existsb_embedded isdigit a s b)).
    pose proof (ite_le _ _ 32 ltac:(lia)
                       (existsb_embedded is_punctuation a s b)).
    lia.
Qed.

(** X18: a password a policy accepts stays accepted when characters are
    put before or after it. *)
Theorem validate_embedded (self : PasswordPolicy) (a s b : str) :
  PasswordPolicyM.validate self (mkPassword s) = true ->
  PasswordPolicyM.validate self (mkPassword (a ++ s ++ b)) = true.
Proof.
  rewrite !validate_true_iff.
  unfold PasswordM.contains_lowercase, PasswordM.contains_uppercase,
    PasswordM.contains_digit, PasswordM.contains_special,
    PasswordM.length, len.
  cbn [_value]. rewrite !length_app.
  intros (H0 & H1 & H2 & H3 & H4).
  repeat split; [lia | | | |]; intros Hr;
    apply existsb_embedded; auto.
Qed.
End LongerPasswords.

(** ** Concrete runs of the further properties *)

(** "Abc123!@" passes the default policy, hence one that asks for six
    characters and a digit only. *)
Lemma validate_relaxed_run :
  relaxes (mkPolicy 6 false false true false) PasswordPolicyM.default
  /\ @PasswordPolicyM.validate ascii_only PasswordPolicyM.default
       (mkPassword (lit "Abc123!@")) = true
  /\ @PasswordPolicyM.validate ascii_only (mkPolicy 6 false false true false)
       (mkPassword (lit "Abc123!@")) = true.
Proof.
  assert (Hr : relaxes (mkPolicy 6 false false true false)
                       PasswordPolicyM.default).
  { unfold relaxes. cbn. repeat split; auto. lia. }
  assert (Hv : @PasswordPolicyM.validate ascii_only PasswordPolicyM.default
                 (mkPassword (lit "Abc123!@")) = true) by reflexivity.
  split; [exact Hr|]. split; [exact Hv|].
  exact (@validate_relaxed ascii_only _ _ _ Hr Hv).
Defined.

(** "abab" inside "x-abab-y". *)
Lemma has_repeats_embedded_run :
  AdvancedPasswordAnalyzer.has_repeated_patterns
    (mkAnalyzer (mkPassword (lit "abab"))) = true
  /\ AdvancedPasswordAnalyzer.has_repeated_patterns
       (mkAnalyzer (mkPassword (lit "x-" ++ lit "abab" ++ lit "-y"))) = true.
Proof.
  split; [reflexivity|].
  apply (has_repeats_embedded (lit "x-") (lit "abab") (lit "-y")).
  reflexivity.
Defined.

(** The default policy asked for twelve characters. *)
Lemma generate_never_common_run :
  min_length (_policy (mkGenerator PasswordPolicyM.default)) <= 12
  /\ exists pw r',
       @PasswordGeneratorM.generate ascii_only
         (mkGenerator PasswordPolicyM.default) 12 1 sample_rng
       = (Return pw, r')
       /\ Forall (fun c => In c (ascii_letters ++ digits ++ punctuation))
                 (PasswordM.value pw)
       /\ dict_get (@BasicPasswordAnalyzer.analyze ascii_only integer_floats
                      (mkAnalyzer pw))
                   (lit "is_common")
          = Some (VBool false).
Proof.
  split; [cbn; lia|].
  apply (@generate_never_common ascii_only integer_floats). cbn. lia.
Defined.

Lemma generate_strong_run :
  min_length (_policy (mkGenerator PasswordPolicyM.default)) <= 12
  /\ 8 <= 12
  /\ exists pw r',
       @PasswordGeneratorM.generate ascii_only
         (mkGenerator PasswordPolicyM.default) 12 1 sample_rng
       = (Return pw, r')
       /\ @BasicPasswordAnalyzer.strength ascii_only (mkAnalyzer pw)
          = lit "Strong"
       /\ @BasicPasswordAnalyzer.entropy ascii_only integer_floats
            (mkAnalyzer pw)
          = @round integer_floats
              (@int_mul_float integer_floats 12
                 (@math_log2 integer_floats 94)) 2.
Proof.
  split; [cbn; lia|]. split; [lia|].
  apply (@generate_strong ascii_only integer_floats); cbn; lia.
Defined.

(** A policy that asks for lowercase only and the default one, from the
    same draws. *)
Lemma generate_ignores_requirements_run :
  min_length (_policy (mkGenerator (mkPolicy 4 false true false false))) <= 12
  /\ min_length (_policy (mkGenerator PasswordPolicyM.default)) <= 12
  /\ @PasswordGeneratorM.generate ascii_only
       (mkGenerator (mkPolicy 4 false true false false)) 12 1 sample_rng
     = @PasswordGeneratorM.generate ascii_only
         (mkGenerator PasswordPolicyM.default) 12 3 sample_rng.
Proof.
  split; [cbn; lia|]. split; [cbn; lia|].
  apply (@generate_ignores_requirements ascii_only); cbn; lia.
Defined.

(** Twelve characters: twenty-three draws. *)
Lemma generate_draw_count_run :
  min_length (_policy (mkGenerator PasswordPolicyM.default)) <= 12
  /\ exists pw,
       @PasswordGeneratorM.generate ascii_only
         (mkGenerator PasswordPolicyM.default) 12 1 sample_rng
       = (Return pw, mkRng (tape sample_rng) (pos sample_rng + 23)).
Proof.
  split; [cbn; lia|].
  apply (@generate_draw_count ascii_only (mkGenerator PasswordPolicyM.default)
                              12 0 sample_rng).
  cbn. lia.
Defined.

(** "PassWord" is common, whatever its case. *)
Lemma common_never_strong_run :
  List.forallb is_ascii (PasswordM.value (mkPassword (lit "PassWord"))) = true
  /\ dict_get (@BasicPasswordAnalyzer.analyze ascii_only integer_floats
                 (mkAnalyzer (mkPassword (lit "PassWord"))))
              (lit "is_common")
     = Some (VBool true)
  /\ (PasswordM.length (mkPassword (lit "PassWord")) = 6
      \/ PasswordM.length (mkPassword (lit "PassWord")) = 8)
  /\ PasswordM.contains_special (mkPassword (lit "PassWord")) = false
  /\ @BasicPasswordAnalyzer.strength ascii_only
       (mkAnalyzer (mkPassword (lit "PassWord")))
     <> lit "Strong".
Proof.
  split; [reflexivity|]. split; [reflexivity|].
  apply (@common_never_strong ascii_only integer_floats
           (mkAnalyzer (mkPassword (lit "PassWord")))); reflexivity.
Defined.

(** "Abc123!@" between two letters. *)
Lemma validate_embedded_run :
  @PasswordPolicyM.validate ascii_only PasswordPolicyM.default
    (mkPassword (lit "Abc123!@")) = true
  /\ @PasswordPolicyM.validate ascii_only PasswordPolicyM.default
       (mkPassword (lit "x" ++ lit "Abc123!@" ++ lit "y")) = true.
Proof.
  split; [reflexivity|].
  apply (@validate_embedded ascii_only PasswordPolicyM.default
           (lit "x") (lit "Abc123!@") (lit "y")).
  reflexivity.
Defined.
